(** * Residual-network assembly (Models/ResNet.py): shallow embedding

    The development follows the Python module top to bottom:

    - the torch layers the module instantiates, kept as the tuple of
      constructor arguments they were built with ([Layer]);
    - the two block classes [ResNetBlock] and [ResNetDeepBlock], the stage
      builder [create_residual_layer] (with the mutable attribute
      [self.in_channels] passed in and out explicitly) and the constructor
      [ResNet_init] (fallible: it indexes the list of block counts);
    - the three [forward] methods, written once over an interface of tensor
      operations ([Tensor]) and run at two instances: tensor shapes, with
      torch's shape rules and their failures, and symbolic dataflow
      expressions, which record which operation is applied to what.

    A layer value stands for the module's hyper-parameters only; weights and
    numeric values are not represented, and channel counts are taken
    non-negative (torch refuses to allocate a parameter of negative size). *)

From Stdlib Require Import ZArith List String Bool Lia.
Import ListNotations.
Local Open Scope Z_scope.

(** ** Failures *)

Inductive PyError : Type :=
| IndexError          (* list index out of range *)
| DimError            (* a layer received an input of the wrong rank *)
| ChannelMismatch     (* input width differs from the width the layer was built with *)
| StrideError         (* non-positive stride *)
| KernelTooLarge      (* kernel larger than the padded input *)
| EmptyInput          (* adaptive pooling of a map with an empty non-batch axis *)
| BatchStatError      (* batch norm, training mode: one value per channel *)
| ShapeMismatchAtAdd. (* x += identity: identity does not broadcast onto x *)

Inductive Res (A : Type) : Type :=
| Ok (a : A)
| Raise (e : PyError).
Arguments Ok {A} a.
Arguments Raise {A} e.

Definition bind {A B : Type} (m : Res A) (k : A -> Res B) : Res B :=
  match m with
  | Ok a => k a
  | Raise e => Raise e
  end.

Declare Scope res_scope.
Delimit Scope res_scope with res.
Notation "x <- m ;; k" := (bind m (fun x => k))
  (at level 61, m at next level, right associativity) : res_scope.
Local Open Scope res_scope.

(** ** Layers *)

(** [Conv2d] and [MaxPool2d] are square (one integer for kernel, stride and
    padding, as every call in the module passes them), dilation 1, groups 1. *)
Inductive Layer : Type :=
| Conv2d (in_channels out_channels kernel_size stride padding : Z) (bias : bool)
| BatchNorm2d (num_features : Z)
| ReLU
| MaxPool2d (kernel_size stride padding : Z)
| AdaptiveAvgPool2d (output_h output_w : Z)
| Linear (in_features out_features : Z).

(** [nn.Sequential] of layers. *)
Definition Sequential : Type := list Layer.

(** Truth value of [if m:] for an optional [nn.Sequential]: [None] is false,
    and a container is false exactly when its [__len__] is 0. *)
Definition truthy (m : option Sequential) : bool :=
  match m with
  | Some (_ :: _) => true
  | _ => false
  end.

(** ** Tensor interface *)

(** What the [forward] methods ask of a tensor.  The [bool] of [apply_layer]
    is the module's [training] flag. *)
Class Tensor (T : Type) : Type := {
  apply_layer : bool -> Layer -> T -> Res T;
  clone : T -> T;
  iadd : T -> T -> Res T;       (* x += identity, in place on x *)
  squeeze : T -> T              (* x.squeeze(), no dim given *)
}.

(** *** Shapes *)

Definition Shape : Type := list Z.

(** Output extent of a convolution or pooling window along one axis. *)
Definition conv_out (h kernel_size stride padding : Z) : Z :=
  (h + 2 * padding - kernel_size) / stride + 1.

Definition window2d (kernel_size stride padding h w : Z) : Res (Z * Z) :=
  if stride <=? 0 then Raise StrideError
  else if (h + 2 * padding <? kernel_size) || (w + 2 * padding <? kernel_size)
  then Raise KernelTooLarge
  else Ok (conv_out h kernel_size stride padding,
           conv_out w kernel_size stride padding).

(** [nn.Linear] acts on the last axis. *)
Fixpoint linear_shape (in_features out_features : Z) (x : Shape) : Res Shape :=
  match x with
  | [] => Raise DimError
  | [d] => if d =? in_features then Ok [out_features] else Raise ChannelMismatch
  | d :: rest =>
      r <- linear_shape in_features out_features rest ;; Ok (d :: r)
  end.

Definition shape_layer (training : bool) (l : Layer) (x : Shape) : Res Shape :=
  match l with
  | Conv2d cin cout k s p _ =>
      match x with
      | [n; c; h; w] =>
          if c =? cin then
            hw <- window2d k s p h w ;; Ok [n; cout; fst hw; snd hw]
          else Raise ChannelMismatch
      | [c; h; w] =>
          if c =? cin then
            hw <- window2d k s p h w ;; Ok [cout; fst hw; snd hw]
          else Raise ChannelMismatch
      | _ => Raise DimError
      end
  | BatchNorm2d f =>
      match x with
      | [n; c; h; w] =>
          if training && (n * h * w =? 1) then Raise BatchStatError
          else if c =? f then Ok x
          else Raise ChannelMismatch
      | _ => Raise DimError
      end
  | ReLU => Ok x
  | MaxPool2d k s p =>
      match x with
      | [n; c; h; w] => hw <- window2d k s p h w ;; Ok [n; c; fst hw; snd hw]
      | [c; h; w] => hw <- window2d k s p h w ;; Ok [c; fst hw; snd hw]
      | _ => Raise DimError
      end
  | AdaptiveAvgPool2d oh ow =>
      match x with
      | [n; c; h; w] =>
          if (c <=? 0) || (h <=? 0) || (w <=? 0) then Raise EmptyInput
          else Ok [n; c; oh; ow]
      | [c; h; w] =>
          if (c <=? 0) || (h <=? 0) || (w <=? 0) then Raise EmptyInput
          else Ok [c; oh; ow]
      | _ => Raise DimError
      end
  | Linear fin fout => linear_shape fin fout x
  end.

(** In-place addition keeps the shape of its left operand: the right operand
    must broadcast onto it, axis by axis from the last one, each of its
    extents being the left one's or 1.  Both lists are given last axis
    first. *)
Fixpoint expands_onto (xr yr : list Z) : bool :=
  match yr, xr with
  | [], _ => true
  | _ :: _, [] => false
  | dy :: yr', dx :: xr' =>
      ((dy =? dx) || (dy =? 1)) && expands_onto xr' yr'
  end.

Definition iadd_shape (x identity : Shape) : Res Shape :=
  if expands_onto (rev x) (rev identity) then Ok x
  else Raise ShapeMismatchAtAdd.

(** [squeeze()] drops every axis of extent 1. *)
Definition squeeze_shape (x : Shape) : Shape :=
  filter (fun d => negb (d =? 1)) x.

#[export] Instance Tensor_Shape : Tensor Shape := {|
  apply_layer := shape_layer;
  clone := fun x => x;
  iadd := iadd_shape;
  squeeze := squeeze_shape
|}.

(** *** Dataflow expressions *)

Inductive Expr : Type :=
| Input
| Apply (l : Layer) (x : Expr)
| Clone (x : Expr)
| IAdd (x identity : Expr)
| Squeeze (x : Expr).

#[export] Instance Tensor_Expr : Tensor Expr := {|
  apply_layer := fun _ l x => Ok (Apply l x);
  clone := Clone;
  iadd := fun x identity => Ok (IAdd x identity);
  squeeze := Squeeze
|}.

(** A sequence of layers applied in order, and an optional projection. *)
Definition chain (seq : Sequential) (x : Expr) : Expr :=
  fold_left (fun e l => Apply l e) seq x.

Definition project (m : option Sequential) (x : Expr) : Expr :=
  match m with
  | Some seq => chain seq x
  | None => x
  end.

(** ** class ResNetDeepBlock *)

Module ResNetDeepBlock.

Record t : Type := {
  expansion : Z;
  conv1 : Layer;
  bn1 : Layer;
  conv2 : Layer;
  bn2 : Layer;
  conv3 : Layer;
  bn3 : Layer;
  relu : Layer;
  identity_downsample : option Sequential;
  stride : Z
}.

(** [__init__(self, in_channels, intermediate_channels,
              identity_downsample=None, stride=1)] *)
Definition init (in_channels intermediate_channels : Z)
    (identity_downsample : option Sequential) (stride : Z) : t :=
  let expansion := 4 in
  {| expansion := expansion;
     conv1 := Conv2d in_channels intermediate_channels 1 1 0 false;
     bn1 := BatchNorm2d intermediate_channels;
     conv2 := Conv2d intermediate_channels intermediate_channels 3 stride 1 false;
     bn2 := BatchNorm2d intermediate_channels;
     conv3 := Conv2d intermediate_channels (intermediate_channels * expansion)
                1 1 0 false;
     bn3 := BatchNorm2d (intermediate_channels * expansion);
     relu := ReLU;
     identity_downsample := identity_downsample;
     stride := stride |}.

End ResNetDeepBlock.

(** ** class ResNetBlock *)

Module ResNetBlock.

Record t : Type := {
  conv_block_1 : Sequential;
  conv_block_2 : Sequential;
  relu : Layer;
  identity_downscale : option Sequential
}.

(** [__init__(self, in_channels, out_channels, stride=1,
              identity_downscale=None)] *)
Definition init (in_channels out_channels stride : Z)
    (identity_downscale : option Sequential) : t :=
  {| conv_block_1 :=
       [Conv2d in_channels out_channels 3 stride 1 false;
        BatchNorm2d out_channels;
        ReLU];
     conv_block_2 :=
       [Conv2d out_channels out_channels 3 1 1 false;
        BatchNorm2d out_channels];
     relu := ReLU;
     identity_downscale := identity_downscale |}.

End ResNetBlock.

(** ** The block argument of the network *)

(** The class object passed as [block]. *)
Inductive BlockClass : Type :=
| ResNetBlock_class
| ResNetDeepBlock_class.

Definition class_name (block : BlockClass) : string :=
  match block with
  | ResNetBlock_class => "ResNetBlock"
  | ResNetDeepBlock_class => "ResNetDeepBlock"
  end.

(** [block.__name__ == "ResNetDeepBlock"] *)
Definition is_deep (block : BlockClass) : bool :=
  String.eqb (class_name block) "ResNetDeepBlock".

(** Expansion factor of a variant: 4 is [ResNetDeepBlock.expansion]; the
    basic block has no such attribute and leaves widths as they are. *)
Definition expansion_of (block : BlockClass) : Z :=
  if is_deep block then 4 else 1.

(** An instance of either class. *)
Inductive Block : Type :=
| Basic (b : ResNetBlock.t)
| Deep (b : ResNetDeepBlock.t).

(** [block(in_channels, out_channels)]: the two-argument call of the loops. *)
Definition call2 (block : BlockClass) (in_channels out_channels : Z) : Block :=
  match block with
  | ResNetBlock_class => Basic (ResNetBlock.init in_channels out_channels 1 None)
  | ResNetDeepBlock_class =>
      Deep (ResNetDeepBlock.init in_channels out_channels None 1)
  end.

(** [nn.Sequential] of blocks. *)
Definition Stage : Type := list Block.

(** [for _ in range(n): acc = body(acc)] *)
Definition for_range {A : Type} (n : Z) (body : A -> A) (acc : A) : A :=
  Nat.iter (Z.to_nat n) body acc.

(** [layers.append(b)] *)
Definition append {A : Type} (layers : list A) (b : A) : list A :=
  layers ++ [b].

(** ** ResNet.create_residual_layer

    [self_in_channels] is [self.in_channels] on entry; the second component
    of the result is its value on exit.  Every call in the module passes
    [deep=(block.__name__ == "ResNetDeepBlock")], and the two branches call
    [block] with the argument order of one class each, so [deep] is computed
    from [block] here rather than taken as a further argument. *)
Definition create_residual_layer (block : BlockClass)
    (out_channels num_residual_blocks stride : Z)
    (self_in_channels : Z) : Stage * Z :=
  let deep := is_deep block in
  if deep then
    let identity_downsample :=
      if negb (stride =? 1) || negb (self_in_channels =? out_channels * 4)
      then Some [Conv2d self_in_channels (out_channels * 4) 1 stride 0 false;
                 BatchNorm2d (out_channels * 4)]
      else None in
    let layers :=
      append [] (Deep (ResNetDeepBlock.init self_in_channels out_channels
                         identity_downsample stride)) in
    let self_in_channels := out_channels * 4 in
    let layers :=
      for_range (num_residual_blocks - 1)
        (fun layers => append layers (call2 block self_in_channels out_channels))
        layers in
    (layers, self_in_channels)
  else
    let in_channels :=
      if negb (out_channels =? 64) then out_channels / 2 else out_channels in
    let identity_downscale :=
      if negb (stride =? 1)
      then Some [Conv2d in_channels out_channels 1 stride 0 false;
                 BatchNorm2d out_channels]
      else None in
    let layers :=
      append [] (Basic (ResNetBlock.init in_channels out_channels stride
                          identity_downscale)) in
    let layers :=
      for_range (num_residual_blocks - 1)
        (fun layers => append layers (call2 block out_channels out_channels))
        layers in
    (layers, self_in_channels).

(** ** class ResNet *)

Module ResNet.

Record t : Type := {
  in_channels : Z;
  initial_layers : Sequential;
  layer_64 : Stage;
  layer_128 : Stage;
  layer_256 : Stage;
  layer_512 : Stage;
  global_avg_pool : Layer;
  fc : Layer
}.

End ResNet.

(** [layers[i]] for a non-negative literal index. *)
Definition getitem (layers : list Z) (i : nat) : Res Z :=
  match nth_error layers i with
  | Some v => Ok v
  | None => Raise IndexError
  end.

(** [ResNet.__init__(self, in_channels, num_classes, layers, block)], for
    [in_channels] and [num_classes] that torch can build layers with: a
    negative one makes [nn.Conv2d] or [nn.Linear] raise when it allocates
    its weight, which a layer value, holding no weight, does not show. *)
Definition ResNet_init (in_channels num_classes : Z) (layers : list Z)
    (block : BlockClass) : Res ResNet.t :=
  let self_in_channels := 64 in
  let initial_layers :=
    [Conv2d in_channels 64 7 2 3 false;
     BatchNorm2d 64;
     MaxPool2d 3 2 1;
     ReLU] in
  n <- getitem layers 0 ;;
  let '(layer_64, self_in_channels) :=
    create_residual_layer block 64 n 1 self_in_channels in
  n <- getitem layers 1 ;;
  let '(layer_128, self_in_channels) :=
    create_residual_layer block 128 n 2 self_in_channels in
  n <- getitem layers 2 ;;
  let '(layer_256, self_in_channels) :=
    create_residual_layer block 256 n 2 self_in_channels in
  n <- getitem layers 3 ;;
  let '(layer_512, self_in_channels) :=
    create_residual_layer block 512 n 2 self_in_channels in
  let global_avg_pool := AdaptiveAvgPool2d 1 1 in
  let fc := Linear (if is_deep block then 512 * 4 else 512) num_classes in
  Ok {| ResNet.in_channels := self_in_channels;
        ResNet.initial_layers := initial_layers;
        ResNet.layer_64 := layer_64;
        ResNet.layer_128 := layer_128;
        ResNet.layer_256 := layer_256;
        ResNet.layer_512 := layer_512;
        ResNet.global_avg_pool := global_avg_pool;
        ResNet.fc := fc |}.

(** ** The forward methods *)

Section Forward.

Context {T : Type} `{Tensor T}.
Variable training : bool.

(** [nn.Sequential.forward] over layers. *)
Fixpoint Sequential_forward (seq : Sequential) (x : T) : Res T :=
  match seq with
  | [] => Ok x
  | l :: rest => x <- apply_layer training l x ;; Sequential_forward rest x
  end.

(** [ResNetDeepBlock.forward] *)
Definition ResNetDeepBlock_forward (self : ResNetDeepBlock.t) (x : T) : Res T :=
  let identity := clone x in
  x <- apply_layer training (ResNetDeepBlock.conv1 self) x ;;
  x <- apply_layer training (ResNetDeepBlock.bn1 self) x ;;
  x <- apply_layer training (ResNetDeepBlock.relu self) x ;;
  x <- apply_layer training (ResNetDeepBlock.conv2 self) x ;;
  x <- apply_layer training (ResNetDeepBlock.bn2 self) x ;;
  x <- apply_layer training (ResNetDeepBlock.relu self) x ;;
  x <- apply_layer training (ResNetDeepBlock.conv3 self) x ;;
  x <- apply_layer training (ResNetDeepBlock.bn3 self) x ;;
  identity <-
    match ResNetDeepBlock.identity_downsample self with
    | Some m => Sequential_forward m identity
    | None => Ok identity
    end ;;
  x <- iadd x identity ;;
  x <- apply_layer training (ResNetDeepBlock.relu self) x ;;
  Ok x.

(** [ResNetBlock.forward] *)
Definition ResNetBlock_forward (self : ResNetBlock.t) (x : T) : Res T :=
  let identity := clone x in
  x <- Sequential_forward (ResNetBlock.conv_block_1 self) x ;;
  x <- Sequential_forward (ResNetBlock.conv_block_2 self) x ;;
  identity <-
    (if truthy (ResNetBlock.identity_downscale self)
     then match ResNetBlock.identity_downscale self with
          | Some m => Sequential_forward m identity
          | None => Ok identity
          end
     else Ok identity) ;;
  x <- iadd x identity ;;
  x <- apply_layer training (ResNetBlock.relu self) x ;;
  Ok x.

Definition Block_forward (b : Block) (x : T) : Res T :=
  match b with
  | Basic b => ResNetBlock_forward b x
  | Deep b => ResNetDeepBlock_forward b x
  end.

(** [nn.Sequential.forward] over blocks. *)
Fixpoint Stage_forward (stage : Stage) (x : T) : Res T :=
  match stage with
  | [] => Ok x
  | b :: rest => x <- Block_forward b x ;; Stage_forward rest x
  end.

(** [ResNet.forward] *)
Definition ResNet_forward (self : ResNet.t) (x : T) : Res T :=
  x <- Sequential_forward (ResNet.initial_layers self) x ;;
  x <- Stage_forward (ResNet.layer_64 self) x ;;
  x <- Stage_forward (ResNet.layer_128 self) x ;;
  x <- Stage_forward (ResNet.layer_256 self) x ;;
  x <- Stage_forward (ResNet.layer_512 self) x ;;
  x <- apply_layer training (ResNet.global_avg_pool self) x ;;
  let x := squeeze x in
  x <- apply_layer training (ResNet.fc self) x ;;
  Ok x.

End Forward.

(** ** Vocabulary of the statements *)

(** The projection the stage builder attaches to a first block: a 1x1
    convolution at the stage's stride, then normalization. *)
Definition projection (in_channels out_channels stride : Z) : Sequential :=
  [Conv2d in_channels out_channels 1 stride 0 false; BatchNorm2d out_channels].

(** Spatial extent after a 3x3 (padding 1) or 1x1 (padding 0) window moved
    with the given stride. *)
Definition strided (h stride : Z) : Z := (h - 1) / stride + 1.

(** Batch norm in training mode needs more than one value per channel; a
    batch of two or more always has them. *)
Definition batch_ok (training : bool) (n : Z) : Prop :=
  training = false \/ 2 <= n.

(** The test batch norm makes on an input of shape [(n, _, h, w)]. *)
Definition stat_ok (training : bool) (n h w : Z) : Prop :=
  training && (n * h * w =? 1) = false.

(** The stage as the specification words it (Stage Builder, steps 1 to 5),
    for comparison with [create_residual_layer]: a projection for the first
    block when the stride is not 1 or the running input width differs from
    width times expansion; the first block at the stage's stride; then
    [count - 1] blocks at stride 1, without projection, from width times
    expansion to itself. *)
Definition spec_stage (block : BlockClass) (running_in width stride count : Z)
    : Stage :=
  let out := width * expansion_of block in
  let proj :=
    if negb (stride =? 1) || negb (running_in =? out)
    then Some (projection running_in out stride) else None in
  match block with
  | ResNetBlock_class => Basic (ResNetBlock.init running_in width stride proj)
  | ResNetDeepBlock_class =>
      Deep (ResNetDeepBlock.init running_in width proj stride)
  end :: repeat (call2 block out width) (Z.to_nat (count - 1)).

(** ** BaseModel.train_model

    The training loop, as the sequence of calls it makes on its
    collaborators.  Tensors are shapes; the data loaders are the lists of
    [(input, labels)] batches they yield, the same at every epoch; the
    loss function and the metric are parameters, which may refuse their
    arguments, as are the outcomes of [optimizer.zero_grad()],
    [loss.backward()] and [optimizer.step()]; loss values are kept
    symbolic (the list of the values summed) and nothing is computed on
    them.  An exception ends the run: what was called before it stays in
    the log. *)

Module BaseModel.

Section TrainModel.

Context {L : Type}.                               (* value of a loss *)
Variable model : bool -> Shape -> Res Shape.      (* model(input), by mode *)
Variable loss_fn : Shape -> Shape -> option L.    (* None: it raises *)
Variable metric_update : Shape -> Shape -> bool.  (* false: it raises *)

(** The calls of a training turn that take no tensor of the loop:
    [optimizer.zero_grad()] and [optimizer.step()], keyed by the batch
    [(input, labels)] of the turn, and [loss.backward()], keyed by what the
    loss was computed from, [(out, labels)].  [false]: the call raises. *)
Variable zero_grad : Shape -> Shape -> bool.
Variable backward : Shape -> Shape -> bool.
Variable optimizer_step : Shape -> Shape -> bool.

Inductive TrainError : Type :=
| ForwardError (e : PyError)          (* raised inside model(input) *)
| ZeroGradError                       (* raised by optimizer.zero_grad() *)
| LossError                           (* raised by loss_fn(out, labels) *)
| BackwardError                       (* raised by loss.backward() *)
| StepError                           (* raised by optimizer.step() *)
| MaxIndexError                       (* torch.max(out, dim=1): no axis 1 *)
| MetricError                         (* raised by metric.update *)
| UnboundLocalError (name : string).  (* loop variable read before any turn *)

Inductive Event : Type :=
| ModelTrain
| ModelEval
| ZeroGrad
| Forward (training : bool) (input : Shape)
| LossCall (out labels : Shape)
| Backward
| MetricUpdate (pred labels : Shape)
| OptimizerStep
| MetricCompute
| MetricReset
| SchedulerStep
| Print (avg_loss avg_vloss : list L * nat).

Record State : Type := {
  training : bool;             (* model.training *)
  batch_indx : option nat;     (* None: not bound yet *)
  vbatch_indx : option nat;
  running_loss : list L;
  avg_loss : list L * nat;     (* the sum and what it is divided by *)
  running_vloss : list L;
  log : list Event             (* oldest call first *)
}.

Inductive Outcome (A : Type) : Type :=
| Done (a : A)
| Fail (e : TrainError).
Arguments Done {A} a.
Arguments Fail {A} e.

Definition M (A : Type) : Type := State -> State * Outcome A.

Definition ret {A : Type} (a : A) : M A := fun s => (s, Done a).

Definition fail {A : Type} (e : TrainError) : M A := fun s => (s, Fail e).

Definition bindM {A B : Type} (m : M A) (k : A -> M B) : M B :=
  fun s =>
    match m s with
    | (s', Done a) => k a s'
    | (s', Fail e) => (s', Fail e)
    end.

Declare Scope train_scope.
Delimit Scope train_scope with train.
Notation "x <- m ;; k" := (bindM m (fun x => k))
  (at level 61, m at next level, right associativity) : train_scope.
Notation "m ;; k" := (bindM m (fun _ => k))
  (at level 61, right associativity) : train_scope.
Local Open Scope train_scope.

Definition get : M State := fun s => (s, Done s).

Definition modify (f : State -> State) : M unit := fun s => (f s, Done tt).

Definition emit (e : Event) : M unit :=
  modify (fun s =>
    {| training := training s; batch_indx := batch_indx s;
       vbatch_indx := vbatch_indx s; running_loss := running_loss s;
       avg_loss := avg_loss s; running_vloss := running_vloss s;
       log := log s ++ [e] |}).

(** [model.train()] and [model.eval()] *)
Definition set_mode (mode : bool) : M unit :=
  modify (fun s =>
    {| training := mode; batch_indx := batch_indx s;
       vbatch_indx := vbatch_indx s; running_loss := running_loss s;
       avg_loss := avg_loss s; running_vloss := running_vloss s;
       log := log s |}) ;;
  emit (if mode then ModelTrain else ModelEval).

Definition set_batch_indx (i : nat) : M unit :=
  modify (fun s =>
    {| training := training s; batch_indx := Some i;
       vbatch_indx := vbatch_indx s; running_loss := running_loss s;
       avg_loss := avg_loss s; running_vloss := running_vloss s;
       log := log s |}).

Definition set_vbatch_indx (i : nat) : M unit :=
  modify (fun s =>
    {| training := training s; batch_indx := batch_indx s;
       vbatch_indx := Some i; running_loss := running_loss s;
       avg_loss := avg_loss s; running_vloss := running_vloss s;
       log := log s |}).

Definition set_running_loss (l : list L) : M unit :=
  modify (fun s =>
    {| training := training s; batch_indx := batch_indx s;
       vbatch_indx := vbatch_indx s; running_loss := l;
       avg_loss := avg_loss s; running_vloss := running_vloss s;
       log := log s |}).

Definition set_avg_loss (a : list L * nat) : M unit :=
  modify (fun s =>
    {| training := training s; batch_indx := batch_indx s;
       vbatch_indx := vbatch_indx s; running_loss := running_loss s;
       avg_loss := a; running_vloss := running_vloss s;
       log := log s |}).

Definition set_running_vloss (l : list L) : M unit :=
  modify (fun s =>
    {| training := training s; batch_indx := batch_indx s;
       vbatch_indx := vbatch_indx s; running_loss := running_loss s;
       avg_loss := avg_loss s; running_vloss := l;
       log := log s |}).

(** [out = model(input)], in the mode the model is in. *)
Definition call_model (input : Shape) : M Shape :=
  s <- get ;;
  emit (Forward (training s) input) ;;
  match model (training s) input with
  | Ok out => ret out
  | Raise e => fail (ForwardError e)
  end.

(** [loss = loss_fn(out, labels)] *)
Definition call_loss (out labels : Shape) : M L :=
  emit (LossCall out labels) ;;
  match loss_fn out labels with
  | Some l => ret l
  | None => fail LossError
  end.

(** Shape of [torch.max(out, dim=1).indices]: axis 1 is reduced away; a
    tensor without axis 1, or with an empty one, is refused. *)
Definition max_dim1_indices (out : Shape) : option Shape :=
  match out with
  | n :: c :: rest => if 0 <? c then Some (n :: rest) else None
  | _ => None
  end.

Definition torch_max_dim1 (out : Shape) : M Shape :=
  match max_dim1_indices out with
  | Some pred => ret pred
  | None => fail MaxIndexError
  end.

(** [metric.update(out, labels)] *)
Definition call_metric_update (pred labels : Shape) : M unit :=
  emit (MetricUpdate pred labels) ;;
  if metric_update pred labels then ret tt else fail MetricError.

(** A call that either goes through or raises; it is logged either way. *)
Definition call (e : Event) (ok : bool) (err : TrainError) : M unit :=
  emit e ;;
  if ok then ret tt else fail err.

(** [for i, b in enumerate(loader): body], counting from [i]. *)
Fixpoint for_enumerate {B : Type} (body : nat -> B -> M unit) (i : nat)
    (loader : list B) : M unit :=
  match loader with
  | [] => ret tt
  | b :: rest => body i b ;; for_enumerate body (S i) rest
  end.

(** [for epoch in range(n): body] *)
Fixpoint for_epochs (n : nat) (body : M unit) : M unit :=
  match n with
  | O => ret tt
  | S k => body ;; for_epochs k body
  end.

(** One turn of the training loop. *)
Definition train_batch (i : nat) (b : Shape * Shape) : M unit :=
  let '(input, labels) := b in
  set_batch_indx i ;;
  call ZeroGrad (zero_grad input labels) ZeroGradError ;;
  out <- call_model input ;;
  loss <- call_loss out labels ;;
  call Backward (backward out labels) BackwardError ;;
  out <- torch_max_dim1 out ;;
  call_metric_update out labels ;;
  call OptimizerStep (optimizer_step input labels) StepError ;;
  s <- get ;;
  set_running_loss (running_loss s ++ [loss]).

(** One turn of the validation loop. *)
Definition validation_batch (i : nat) (b : Shape * Shape) : M unit :=
  let '(vinputs, vlabels) := b in
  set_vbatch_indx i ;;
  voutputs <- call_model vinputs ;;
  vloss <- call_loss voutputs vlabels ;;
  voutputs <- torch_max_dim1 voutputs ;;
  call_metric_update voutputs vlabels ;;
  s <- get ;;
  set_running_vloss (running_vloss s ++ [vloss]).

(** Reading a loop variable after the loop: unbound if the loop never
    turned. *)
Definition read_index (name : string) (v : State -> option nat) : M nat :=
  s <- get ;;
  match v s with
  | Some i => ret i
  | None => fail (UnboundLocalError name)
  end.

(** The body of [for epoch in range(num_epochs)]. *)
Definition epoch (train_loader validation_loader : list (Shape * Shape))
    (scheduler : bool) : M unit :=
  set_mode true ;;
  set_running_loss [] ;;
  for_enumerate train_batch 0%nat train_loader ;;
  i <- read_index "batch_indx" batch_indx ;;
  s <- get ;;
  set_avg_loss (running_loss s, S i) ;;
  emit MetricCompute ;;
  emit MetricReset ;;
  (if scheduler then emit SchedulerStep else ret tt) ;;
  set_mode false ;;
  set_running_vloss [] ;;
  for_enumerate validation_batch 0%nat validation_loader ;;
  vi <- read_index "vbatch_indx" vbatch_indx ;;
  emit MetricCompute ;;
  s <- get ;;
  emit (Print (avg_loss s) (running_vloss s, S vi)) ;;
  emit MetricReset.

(** The state on entry: the model in the mode it was left in, no loop
    variable bound, nothing called. *)
Definition entry (mode : bool) : State :=
  {| training := mode; batch_indx := None; vbatch_indx := None;
     running_loss := []; avg_loss := ([], O); running_vloss := [];
     log := [] |}.

(** [train_model(model, train_loader, validation_loader, loss_fn,
                 optimizer, metric, num_epochs, device, scheduler)] *)
Definition train_model (train_loader validation_loader : list (Shape * Shape))
    (num_epochs : Z) (scheduler : bool) (mode : bool) : State * Outcome unit :=
  (set_running_loss [] ;;
   set_avg_loss ([], O) ;;
   for_epochs (Z.to_nat num_epochs)
     (epoch train_loader validation_loader scheduler)) (entry mode).

(** A batch on which every call of a loop turn succeeds, the model being
    in the given mode; in training mode the turn is the training turn,
    which also calls the optimizer and [loss.backward()]. *)
Definition step_ok (mode : bool) (b : Shape * Shape) : Prop :=
  exists out l pred,
    model mode (fst b) = Ok out /\
    loss_fn out (snd b) = Some l /\
    max_dim1_indices out = Some pred /\
    metric_update pred (snd b) = true /\
    (mode = true ->
     zero_grad (fst b) (snd b) = true /\
     backward out (snd b) = true /\
     optimizer_step (fst b) (snd b) = true).

(** How many times an event of a kind occurs in a log. *)
Definition count (p : Event -> bool) (l : list Event) : nat :=
  List.length (filter p l).

Definition is_step (e : Event) : bool :=
  match e with OptimizerStep => true | _ => false end.

Definition is_forward (e : Event) : bool :=
  match e with Forward _ _ => true | _ => false end.

Definition is_reset (e : Event) : bool :=
  match e with MetricReset => true | _ => false end.

End TrainModel.

Arguments Done {A} a.
Arguments Fail {A} e.

End BaseModel.

(** * Lemmas on the shape rules *)

Lemma conv_out_3x3 h s : conv_out h 3 s 1 = strided h s.
Proof. unfold conv_out, strided. do 2 f_equal. lia. Qed.

Lemma conv_out_1x1 h s : conv_out h 1 s 0 = strided h s.
Proof. unfold conv_out, strided. do 2 f_equal. lia. Qed.

Lemma strided_1 h : strided h 1 = h.
Proof. unfold strided. rewrite Z.div_1_r. lia. Qed.

Lemma strided_pos h s : 1 <= s -> 1 <= h -> 1 <= strided h s.
Proof.
  intros Hs Hh. unfold strided.
  assert (0 <= (h - 1) / s) by (apply Z.div_pos; lia). lia.
Qed.

Create HintDb shapes.
#[local] Hint Resolve strided_pos : shapes.

Lemma window2d_ok k s p h w :
  1 <= s -> k <= h + 2 * p -> k <= w + 2 * p ->
  window2d k s p h w = Ok (conv_out h k s p, conv_out w k s p).
Proof.
  intros Hs Hh Hw. unfold window2d.
  destruct (Z.leb_spec s 0); [lia|].
  destruct (Z.ltb_spec (h + 2 * p) k); [lia|].
  destruct (Z.ltb_spec (w + 2 * p) k); [lia|]. reflexivity.
Qed.

Lemma batch_ok_stat tr n h w :
  batch_ok tr n -> 1 <= h -> 1 <= w -> stat_ok tr n h w.
Proof.
  unfold stat_ok. intros [-> | Hn] Hh Hw; [reflexivity|].
  destruct (Z.eqb_spec (n * h * w) 1); [nia|]. apply andb_false_r.
Qed.

#[local] Hint Resolve batch_ok_stat : shapes.

Lemma conv3x3_shape tr cin cout s b n h w :
  1 <= s -> 1 <= h -> 1 <= w ->
  shape_layer tr (Conv2d cin cout 3 s 1 b) [n; cin; h; w]
  = Ok [n; cout; strided h s; strided w s].
Proof.
  intros. cbn [shape_layer]. rewrite Z.eqb_refl, window2d_ok by lia.
  cbn [bind fst snd]. now rewrite !conv_out_3x3.
Qed.

Lemma conv1x1_shape tr cin cout s b n h w :
  1 <= s -> 1 <= h -> 1 <= w ->
  shape_layer tr (Conv2d cin cout 1 s 0 b) [n; cin; h; w]
  = Ok [n; cout; strided h s; strided w s].
Proof.
  intros. cbn [shape_layer]. rewrite Z.eqb_refl, window2d_ok by lia.
  cbn [bind fst snd]. now rewrite !conv_out_1x1.
Qed.

Lemma bn_shape tr c n h w :
  stat_ok tr n h w ->
  shape_layer tr (BatchNorm2d c) [n; c; h; w] = Ok [n; c; h; w].
Proof. intros E. cbn [shape_layer]. now rewrite E, Z.eqb_refl. Qed.

Lemma expands_onto_refl l : expands_onto l l = true.
Proof. induction l as [|d l IH]; cbn; [reflexivity|]. now rewrite Z.eqb_refl. Qed.

Lemma iadd_shape_same x : iadd_shape x x = Ok x.
Proof. unfold iadd_shape. now rewrite expands_onto_refl. Qed.

(** * Shapes through the blocks *)

Lemma relu_shape tr x : shape_layer tr ReLU x = Ok x.
Proof. reflexivity. Qed.

Ltac shape_step :=
  first [ progress cbn [bind apply_layer Tensor_Shape clone iadd
                        Sequential_forward]
        | rewrite relu_shape
        | rewrite !strided_1
        | rewrite conv3x3_shape by (auto with shapes; lia)
        | rewrite conv1x1_shape by (auto with shapes; lia)
        | rewrite bn_shape by assumption
        | rewrite iadd_shape_same ].

Lemma ResNetBlock_shape tr cin cout s proj n h w :
  1 <= s -> 1 <= h -> 1 <= w ->
  stat_ok tr n (strided h s) (strided w s) ->
  proj = Some (projection cin cout s) \/ (proj = None /\ s = 1 /\ cin = cout) ->
  ResNetBlock_forward tr (ResNetBlock.init cin cout s proj) [n; cin; h; w]
  = Ok [n; cout; strided h s; strided w s].
Proof.
  intros Hs Hh Hw Hb [-> | (-> & -> & ->)];
    rewrite ?strided_1 in Hb;
    unfold ResNetBlock_forward, projection;
    cbn [ResNetBlock.init ResNetBlock.conv_block_1 ResNetBlock.conv_block_2
         ResNetBlock.relu ResNetBlock.identity_downscale truthy];
    repeat shape_step; reflexivity.
Qed.

Lemma ResNetDeepBlock_shape tr cin mid s proj n h w :
  1 <= s -> 1 <= h -> 1 <= w ->
  stat_ok tr n h w -> stat_ok tr n (strided h s) (strided w s) ->
  proj = Some (projection cin (mid * 4) s)
  \/ (proj = None /\ s = 1 /\ cin = mid * 4) ->
  ResNetDeepBlock_forward tr (ResNetDeepBlock.init cin mid proj s) [n; cin; h; w]
  = Ok [n; mid * 4; strided h s; strided w s].
Proof.
  intros Hs Hh Hw Hb Hb' [-> | (-> & -> & ->)];
    rewrite ?strided_1 in Hb';
    unfold ResNetDeepBlock_forward, projection;
    cbn [ResNetDeepBlock.init ResNetDeepBlock.conv1 ResNetDeepBlock.bn1
         ResNetDeepBlock.conv2 ResNetDeepBlock.bn2 ResNetDeepBlock.conv3
         ResNetDeepBlock.bn3 ResNetDeepBlock.relu
         ResNetDeepBlock.identity_downsample];
    repeat shape_step; reflexivity.
Qed.

(** * The stage builder, unfolded *)

Lemma for_range_append {A : Type} (n : Z) (b : A) (layers : list A) :
  for_range n (fun layers => append layers b) layers
  = layers ++ repeat b (Z.to_nat n).
Proof.
  unfold for_range. induction (Z.to_nat n) as [|k IH].
  - cbn. now rewrite app_nil_r.
  - rewrite Nat.iter_succ, IH. cbn [repeat]. unfold append.
    rewrite <- app_assoc. f_equal.
    symmetry. apply (repeat_cons k b).
Qed.

Lemma create_residual_layer_deep out c s st :
  create_residual_layer ResNetDeepBlock_class out c s st
  = (Deep (ResNetDeepBlock.init st out
             (if negb (s =? 1) || negb (st =? out * 4)
              then Some (projection st (out * 4) s) else None) s)
       :: repeat (Deep (ResNetDeepBlock.init (out * 4) out None 1))
            (Z.to_nat (c - 1)),
     out * 4).
Proof.
  unfold create_residual_layer. cbn [is_deep class_name String.eqb].
  change (String.eqb "ResNetDeepBlock" "ResNetDeepBlock") with true.
  cbv iota. now rewrite for_range_append.
Qed.

Lemma create_residual_layer_basic out c s st :
  create_residual_layer ResNetBlock_class out c s st
  = (Basic (ResNetBlock.init (if out =? 64 then out else out / 2) out s
              (if s =? 1 then None
               else Some (projection (if out =? 64 then out else out / 2) out s)))
       :: repeat (Basic (ResNetBlock.init out out 1 None)) (Z.to_nat (c - 1)),
     st).
Proof.
  unfold create_residual_layer.
  change (is_deep ResNetBlock_class) with false. cbv iota.
  rewrite for_range_append. unfold projection.
  destruct (out =? 64), (s =? 1); reflexivity.
Qed.

(** * Shapes through a stage *)

Lemma Stage_forward_repeat {T : Type} `{Tensor T} tr (b : Block) (x : T) k :
  Block_forward tr b x = Ok x -> Stage_forward tr (repeat b k) x = Ok x.
Proof.
  intros E. induction k as [|k IH]; cbn [repeat Stage_forward]; [reflexivity|].
  rewrite E. exact IH.
Qed.

Lemma deep_stage_shape tr out c s st n h w :
  1 <= s -> 1 <= h -> 1 <= w -> batch_ok tr n ->
  Stage_forward tr (fst (create_residual_layer ResNetDeepBlock_class out c s st))
    [n; st; h; w]
  = Ok [n; out * 4; strided h s; strided w s].
Proof.
  intros Hs Hh Hw Hb. rewrite create_residual_layer_deep.
  cbn [fst Stage_forward Block_forward].
  rewrite ResNetDeepBlock_shape; auto with shapes.
  - cbn [bind]. apply Stage_forward_repeat. cbn [Block_forward].
    rewrite ResNetDeepBlock_shape;
      rewrite ?strided_1; auto with shapes; lia.
  - destruct (Z.eqb_spec s 1) as [-> | Hs1];
      destruct (Z.eqb_spec st (out * 4)) as [-> | Hst]; cbn; auto.
Qed.

Lemma basic_stage_shape tr out c s st n h w :
  1 <= s -> 1 <= h -> 1 <= w -> batch_ok tr n ->
  s <> 1 \/ out = 64 ->
  Stage_forward tr (fst (create_residual_layer ResNetBlock_class out c s st))
    [n; if out =? 64 then out else out / 2; h; w]
  = Ok [n; out; strided h s; strided w s].
Proof.
  intros Hs Hh Hw Hb Hcase. rewrite create_residual_layer_basic.
  cbn [fst Stage_forward Block_forward].
  rewrite ResNetBlock_shape; auto with shapes.
  - cbn [bind]. apply Stage_forward_repeat. cbn [Block_forward].
    rewrite ResNetBlock_shape;
      rewrite ?strided_1; auto with shapes; lia.
  - destruct (Z.eqb_spec s 1) as [-> | Hs1]; [right | now left].
    destruct Hcase as [? | ->]; [lia|]. now rewrite Z.eqb_refl.
Qed.

(** * Shapes through the network *)

Lemma conv7x7_shape tr cin cout s b n h w :
  1 <= s -> 1 <= h -> 1 <= w ->
  shape_layer tr (Conv2d cin cout 7 s 3 b) [n; cin; h; w]
  = Ok [n; cout; strided h s; strided w s].
Proof.
  intros. cbn [shape_layer]. rewrite Z.eqb_refl, window2d_ok by lia.
  cbn [bind fst snd]. unfold conv_out, strided.
  now replace (h + 2 * 3 - 7) with (h - 1) by lia;
      replace (w + 2 * 3 - 7) with (w - 1) by lia.
Qed.

Lemma maxpool3x3_shape tr s n c h w :
  1 <= s -> 1 <= h -> 1 <= w ->
  shape_layer tr (MaxPool2d 3 s 1) [n; c; h; w]
  = Ok [n; c; strided h s; strided w s].
Proof.
  intros. cbn [shape_layer]. rewrite window2d_ok by lia.
  cbn [bind fst snd]. now rewrite !conv_out_3x3.
Qed.

Lemma avgpool_shape tr oh ow n c h w :
  1 <= c -> 1 <= h -> 1 <= w ->
  shape_layer tr (AdaptiveAvgPool2d oh ow) [n; c; h; w] = Ok [n; c; oh; ow].
Proof.
  intros. cbn [shape_layer].
  destruct (Z.leb_spec c 0); [lia|]. destruct (Z.leb_spec h 0); [lia|].
  destruct (Z.leb_spec w 0); [lia|]. reflexivity.
Qed.

Lemma squeeze_pooled n c :
  n <> 1 -> c <> 1 -> squeeze_shape [n; c; 1; 1] = [n; c].
Proof.
  intros Hn Hc. unfold squeeze_shape. cbn [filter].
  destruct (Z.eqb_spec n 1); [contradiction|].
  destruct (Z.eqb_spec c 1); [contradiction|]. reflexivity.
Qed.

Lemma linear_shape_2d fin fout n :
  linear_shape fin fout [n; fin] = Ok [n; fout].
Proof. cbn [linear_shape]. now rewrite Z.eqb_refl. Qed.

Lemma basic_stage_shape_at tr out c s st n cin h w :
  1 <= s -> 1 <= h -> 1 <= w -> batch_ok tr n ->
  s <> 1 \/ out = 64 ->
  cin = (if out =? 64 then out else out / 2) ->
  Stage_forward tr (fst (create_residual_layer ResNetBlock_class out c s st))
    [n; cin; h; w]
  = Ok [n; out; strided h s; strided w s].
Proof. intros ? ? ? ? ? ->. now apply basic_stage_shape. Qed.

(** The constructor on a list of at least four counts: [self.in_channels]
    stays 64 through the basic stages and follows the widths through the
    bottleneck ones. *)
Lemma ResNet_init_four cin ncls n0 n1 n2 n3 rest block :
  ResNet_init cin ncls (n0 :: n1 :: n2 :: n3 :: rest) block
  = Ok {| ResNet.in_channels := if is_deep block then 2048 else 64;
          ResNet.initial_layers :=
            [Conv2d cin 64 7 2 3 false; BatchNorm2d 64; MaxPool2d 3 2 1; ReLU];
          ResNet.layer_64 := fst (create_residual_layer block 64 n0 1 64);
          ResNet.layer_128 :=
            fst (create_residual_layer block 128 n1 2
                   (if is_deep block then 256 else 64));
          ResNet.layer_256 :=
            fst (create_residual_layer block 256 n2 2
                   (if is_deep block then 512 else 64));
          ResNet.layer_512 :=
            fst (create_residual_layer block 512 n3 2
                   (if is_deep block then 1024 else 64));
          ResNet.global_avg_pool := AdaptiveAvgPool2d 1 1;
          ResNet.fc := Linear (if is_deep block then 2048 else 512) ncls |}.
Proof.
  unfold ResNet_init. cbn [getitem nth_error bind].
  destruct block.
  - change (is_deep ResNetBlock_class) with false. cbv iota.
    rewrite !create_residual_layer_basic. reflexivity.
  - change (is_deep ResNetDeepBlock_class) with true. cbv iota.
    rewrite !create_residual_layer_deep. reflexivity.
Qed.

Lemma ResNet_forward_shape tr cin ncls n0 n1 n2 n3 rest block n h w :
  1 <= cin -> 1 <= ncls -> 2 <= n -> 1 <= h -> 1 <= w ->
  exists net,
    ResNet_init cin ncls (n0 :: n1 :: n2 :: n3 :: rest) block = Ok net /\
    ResNet_forward tr net [n; cin; h; w] = Ok [n; ncls].
Proof.
  intros Hc Hk Hn Hh Hw. eexists. split; [apply ResNet_init_four|].
  assert (Hb : batch_ok tr n) by (right; exact Hn).
  pose proof (strided_pos h 2 ltac:(lia) Hh) as H1.
  pose proof (strided_pos w 2 ltac:(lia) Hw) as W1.
  pose proof (strided_pos _ 2 ltac:(lia) H1) as H2.
  pose proof (strided_pos _ 2 ltac:(lia) W1) as W2.
  pose proof (strided_pos _ 2 ltac:(lia) H2) as H3.
  pose proof (strided_pos _ 2 ltac:(lia) W2) as W3.
  pose proof (strided_pos _ 2 ltac:(lia) H3) as H4.
  pose proof (strided_pos _ 2 ltac:(lia) W3) as W4.
  pose proof (strided_pos _ 2 ltac:(lia) H4) as H5.
  pose proof (strided_pos _ 2 ltac:(lia) W4) as W5.
  unfold ResNet_forward.
  cbn [ResNet.initial_layers ResNet.layer_64 ResNet.layer_128 ResNet.layer_256
       ResNet.layer_512 ResNet.global_avg_pool ResNet.fc Sequential_forward
       apply_layer Tensor_Shape squeeze].
  rewrite conv7x7_shape by lia. cbn [bind].
  rewrite bn_shape by (apply batch_ok_stat; assumption). cbn [bind].
  rewrite maxpool3x3_shape by lia. cbn [bind]. rewrite relu_shape. cbn [bind].
  destruct block.
  - change (is_deep ResNetBlock_class) with false. cbv iota.
    rewrite (basic_stage_shape_at tr 64) by (auto; lia). cbn [bind].
    rewrite !strided_1.
    rewrite (basic_stage_shape_at tr 128) by (auto; lia). cbn [bind].
    rewrite (basic_stage_shape_at tr 256) by (auto; lia). cbn [bind].
    rewrite (basic_stage_shape_at tr 512) by (auto; lia). cbn [bind].
    rewrite avgpool_shape by lia. cbn [bind].
    rewrite squeeze_pooled by lia. cbn [shape_layer].
    now rewrite linear_shape_2d.
  - change (is_deep ResNetDeepBlock_class) with true. cbv iota.
    rewrite (deep_stage_shape tr 64) by (auto; lia). cbn [bind].
    rewrite !strided_1.
    change (64 * 4) with 256.
    rewrite (deep_stage_shape tr 128) by (auto; lia). cbn [bind].
    change (128 * 4) with 512.
    rewrite (deep_stage_shape tr 256) by (auto; lia). cbn [bind].
    change (256 * 4) with 1024.
    rewrite (deep_stage_shape tr 512) by (auto; lia). cbn [bind].
    change (512 * 4) with 2048.
    rewrite avgpool_shape by lia. cbn [bind].
    rewrite squeeze_pooled by lia. cbn [shape_layer].
    now rewrite linear_shape_2d.
Qed.

(** * The builder against the specification's stage *)

Lemma expansion_of_basic : expansion_of ResNetBlock_class = 1.
Proof. reflexivity. Qed.

Lemma expansion_of_deep : expansion_of ResNetDeepBlock_class = 4.
Proof. reflexivity. Qed.

(** The bottleneck branch is the specification's stage, whatever it is
    called with. *)
Lemma deep_builder_meets_spec out c s st :
  create_residual_layer ResNetDeepBlock_class out c s st
  = (spec_stage ResNetDeepBlock_class st out s c, out * 4).
Proof.
  rewrite create_residual_layer_deep. unfold spec_stage.
  rewrite expansion_of_deep. reflexivity.
Qed.

(** The basic branch is the specification's stage when the stage strides or
    has width 64, the only ways the constructor calls it. *)
Lemma basic_builder_meets_spec out c s st :
  s <> 1 \/ out = 64 ->
  create_residual_layer ResNetBlock_class out c s st
  = (spec_stage ResNetBlock_class (if out =? 64 then out else out / 2) out s c,
     st).
Proof.
  intros Hcase. rewrite create_residual_layer_basic. unfold spec_stage.
  rewrite expansion_of_basic, Z.mul_1_r. cbn [call2].
  destruct (Z.eqb_spec s 1) as [-> | Hs]; cbn [negb orb]; [|reflexivity].
  destruct Hcase as [? | ->]; [contradiction|]. reflexivity.
Qed.

(** * Dataflow of the forward methods *)

Lemma Sequential_forward_chain tr seq (x : Expr) :
  Sequential_forward tr seq x = Ok (chain seq x).
Proof.
  revert x. induction seq as [|l seq IH]; intros x; [reflexivity|].
  cbn [Sequential_forward apply_layer Tensor_Expr bind]. rewrite IH.
  reflexivity.
Qed.

Lemma Block_forward_total tr b (x : Expr) :
  exists e, Block_forward tr b x = Ok e.
Proof.
  destruct b as [b | b]; cbn [Block_forward].
  - unfold ResNetBlock_forward. rewrite !Sequential_forward_chain.
    cbn [bind]. rewrite Sequential_forward_chain. cbn [bind].
    destruct (truthy _); [destruct (ResNetBlock.identity_downscale b)|];
      rewrite ?Sequential_forward_chain; cbn; eauto.
  - unfold ResNetDeepBlock_forward.
    cbn [apply_layer Tensor_Expr bind clone].
    destruct (ResNetDeepBlock.identity_downsample b);
      rewrite ?Sequential_forward_chain; cbn; eauto.
Qed.

Lemma Stage_forward_total tr stage (x : Expr) :
  exists e, Stage_forward tr stage x = Ok e.
Proof.
  revert x. induction stage as [|b stage IH]; intros x; cbn [Stage_forward].
  - eauto.
  - destruct (Block_forward_total tr b x) as [e ->]. cbn [bind]. apply IH.
Qed.

(** * The claims *)

(** ** C1: output shape of [ResNet.forward] *)

(** The two runs at the end of the module: both networks map a
    [(16, 3, 224, 224)] batch to [(16, 36)]. *)
Example main_basic_output_shape :
  exists net,
    ResNet_init 3 36 [2; 2; 2; 2] ResNetBlock_class = Ok net /\
    ResNet_forward true net [16; 3; 224; 224] = Ok [16; 36].
Proof. eexists. split; [reflexivity|]. vm_compute. reflexivity. Qed.

Example main_deep_output_shape :
  exists net,
    ResNet_init 3 36 [3; 4; 23; 3] ResNetDeepBlock_class = Ok net /\
    ResNet_forward true net [16; 3; 224; 224] = Ok [16; 36].
Proof. eexists. split; [reflexivity|]. vm_compute. reflexivity. Qed.

(** Batches of two or more images: any counts, either variant, any image of
    at least 32 by 32 (in fact any non-empty image) give [(N, num_classes)],
    in training and in evaluation mode. *)
Lemma ResNet_forward_shape_32 tr cin ncls n0 n1 n2 n3 block n h w :
  1 <= cin -> 1 <= ncls -> 2 <= n -> 32 <= h -> 32 <= w ->
  exists net,
    ResNet_init cin ncls [n0; n1; n2; n3] block = Ok net /\
    ResNet_forward tr net [n; cin; h; w] = Ok [n; ncls].
Proof. intros. apply ResNet_forward_shape; lia. Qed.

(** C1 (defect in the code).  The claim promises shape [(N, num_classes)]
    for every batch size N.  On a batch of one image, the network of the
    claim's own scenario (3 input channels, 36 classes, counts [2,2,2,2],
    basic blocks) applied to a [(1, 3, 224, 224)] input returns the
    one-axis shape [(36)], in both modes, not [(1, 36)]: [x.squeeze()] is
    called without an axis and removes the batch axis together with the two
    pooled ones. *)
Theorem forward_on_single_image_drops_batch_axis :
  exists net,
    ResNet_init 3 36 [2; 2; 2; 2] ResNetBlock_class = Ok net /\
    (forall training,
        ResNet_forward training net [1; 3; 224; 224] = Ok [36]) /\
    @Ok Shape [36] <> Ok [1; 36].
Proof.
  eexists. split; [reflexivity|]. split.
  - intros []; vm_compute; reflexivity.
  - discriminate.
Qed.

(** ** C2: when the stage builder attaches a projection *)

(** C2 (defect in the code).  The claim asks, for either variant, for a
    projection on the first block as soon as the running input width
    differs from width times expansion.  The bottleneck branch tests this
    ([deep_builder_meets_spec]); the basic branch tests the stride only.
    Called for a basic stage of width 128 at stride 1, the builder gives the
    first block 64 input channels, 128 output channels and no projection,
    and the stage fails at the merge of that block on every
    [(16, 64, 56, 56)] input. *)
Theorem basic_stage_lacks_projection_on_width_change :
  let stage := fst (create_residual_layer ResNetBlock_class 128 2 1 64) in
  hd_error stage = Some (Basic (ResNetBlock.init 64 128 1 None)) /\
  64 <> 128 * expansion_of ResNetBlock_class /\
  stage <> spec_stage ResNetBlock_class 64 128 1 2 /\
  forall training,
    Stage_forward training stage [16; 64; 56; 56] = Raise ShapeMismatchAtAdd.
Proof.
  cbv zeta. split; [reflexivity|]. split; [discriminate|]. split.
  - vm_compute. discriminate.
  - intros []; vm_compute; reflexivity.
Qed.

(** ** C3: the assembled network *)

(** C3.  On four block counts (further entries are not read) the constructor
    returns a network whose stem is a 7x7 convolution of stride 2 from
    [in_channels] to 64 channels, normalization, a 3x3 max-pool of stride 2
    and the activation, in this order; whose four stages are the
    specification's stages of widths 64, 128, 256, 512 and strides 1, 2, 2,
    2, each entered with the width the previous one leaves; whose pooling
    is global average pooling to one cell; and whose classifier maps 2048
    (bottleneck) or 512 (basic) features to [num_classes].  [forward] runs
    them in this order: stem, the four stages, the pooling, the squeeze,
    the classifier. *)
Theorem network_assembly cin ncls n0 n1 n2 n3 rest block :
  exists net,
    ResNet_init cin ncls (n0 :: n1 :: n2 :: n3 :: rest) block = Ok net /\
    ResNet.initial_layers net
      = [Conv2d cin 64 7 2 3 false; BatchNorm2d 64; MaxPool2d 3 2 1; ReLU] /\
    ResNet.layer_64 net = spec_stage block 64 64 1 n0 /\
    ResNet.layer_128 net = spec_stage block (64 * expansion_of block) 128 2 n1 /\
    ResNet.layer_256 net = spec_stage block (128 * expansion_of block) 256 2 n2 /\
    ResNet.layer_512 net = spec_stage block (256 * expansion_of block) 512 2 n3 /\
    ResNet.global_avg_pool net = AdaptiveAvgPool2d 1 1 /\
    ResNet.fc net
      = Linear (match block with
                | ResNetDeepBlock_class => 2048
                | ResNetBlock_class => 512
                end) ncls /\
    512 * expansion_of block
      = (match block with
         | ResNetDeepBlock_class => 2048
         | ResNetBlock_class => 512
         end) /\
    forall training, exists e1 e2 e3 e4 e5,
      e1 = Apply ReLU (Apply (MaxPool2d 3 2 1) (Apply (BatchNorm2d 64)
             (Apply (Conv2d cin 64 7 2 3 false) Input))) /\
      Sequential_forward training (ResNet.initial_layers net) Input = Ok e1 /\
      Stage_forward training (ResNet.layer_64 net) e1 = Ok e2 /\
      Stage_forward training (ResNet.layer_128 net) e2 = Ok e3 /\
      Stage_forward training (ResNet.layer_256 net) e3 = Ok e4 /\
      Stage_forward training (ResNet.layer_512 net) e4 = Ok e5 /\
      ResNet_forward training net Input
        = Ok (Apply (ResNet.fc net)
                (Squeeze (Apply (ResNet.global_avg_pool net) e5))).
Proof.
  eexists. split; [apply ResNet_init_four|].
  cbn [ResNet.initial_layers ResNet.layer_64 ResNet.layer_128 ResNet.layer_256
       ResNet.layer_512 ResNet.global_avg_pool ResNet.fc].
  split; [reflexivity|].
  assert (Hst :
    fst (create_residual_layer block 64 n0 1 64) = spec_stage block 64 64 1 n0 /\
    fst (create_residual_layer block 128 n1 2 (if is_deep block then 256 else 64))
      = spec_stage block (64 * expansion_of block) 128 2 n1 /\
    fst (create_residual_layer block 256 n2 2 (if is_deep block then 512 else 64))
      = spec_stage block (128 * expansion_of block) 256 2 n2 /\
    fst (create_residual_layer block 512 n3 2 (if is_deep block then 1024 else 64))
      = spec_stage block (256 * expansion_of block) 512 2 n3).
  { destruct block.
    - rewrite !basic_builder_meets_spec by (auto; lia). repeat split.
    - rewrite !deep_builder_meets_spec. repeat split. }
  destruct Hst as (-> & -> & -> & ->).
  do 4 (split; [reflexivity|]).
  split; [reflexivity|]. split; [now destruct block|]. split; [now destruct block|].
  intros training. unfold ResNet_forward.
  cbn [ResNet.initial_layers ResNet.layer_64 ResNet.layer_128 ResNet.layer_256
       ResNet.layer_512 ResNet.global_avg_pool ResNet.fc].
  rewrite Sequential_forward_chain. cbn [chain fold_left bind].
  set (e1 := Apply ReLU _).
  destruct (Stage_forward_total training (spec_stage block 64 64 1 n0) e1)
    as [e2 E2].
  destruct (Stage_forward_total training
              (spec_stage block (64 * expansion_of block) 128 2 n1) e2)
    as [e3 E3].
  destruct (Stage_forward_total training
              (spec_stage block (128 * expansion_of block) 256 2 n2) e3)
    as [e4 E4].
  destruct (Stage_forward_total training
              (spec_stage block (256 * expansion_of block) 512 2 n3) e4)
    as [e5 E5].
  exists e1, e2, e3, e4, e5. rewrite E2. cbn [bind]. rewrite E3. cbn [bind].
  rewrite E4. cbn [bind]. rewrite E5. cbn [bind apply_layer Tensor_Expr squeeze].
  repeat split; reflexivity.
Qed.

(** ** C4 and C5: the forward pass of the two blocks *)

Lemma bind_Ok {A B : Type} (m : Res A) (k : A -> Res B) (y : B) :
  bind m k = Ok y -> exists a, m = Ok a /\ k a = Ok y.
Proof. destruct m as [a | e]; cbn; [eauto | discriminate]. Qed.

Lemma window2d_Ok k s p h w hw :
  window2d k s p h w = Ok hw -> hw = (conv_out h k s p, conv_out w k s p).
Proof.
  unfold window2d. destruct (s <=? 0); [discriminate|].
  destruct (_ || _); [discriminate|]. now intros [= <-].
Qed.

(** A convolution whose result has four axes was given four axes. *)
Lemma conv_Ok_4d tr cin cout k s p b x n c h w :
  shape_layer tr (Conv2d cin cout k s p b) x = Ok [n; c; h; w] ->
  exists h0 w0,
    x = [n; cin; h0; w0] /\ c = cout /\
    h = conv_out h0 k s p /\ w = conv_out w0 k s p.
Proof.
  cbn [shape_layer].
  destruct x as [|a [|a1 [|a2 [|a3 [|a4 r]]]]]; try discriminate.
  - destruct (Z.eqb_spec a cin); [|discriminate].
    destruct (window2d k s p a1 a2); cbn; discriminate.
  - destruct (Z.eqb_spec a1 cin) as [-> |]; [|discriminate].
    destruct (window2d k s p a2 a3) as [hw |] eqn:E; cbn; [|discriminate].
    apply window2d_Ok in E. subst hw. cbn [fst snd]. intros [= <- <- <- <-].
    exists a2, a3. repeat split.
Qed.

Lemma bn_Ok tr f x y :
  shape_layer tr (BatchNorm2d f) x = Ok y ->
  exists n h w, x = [n; f; h; w] /\ y = [n; f; h; w].
Proof.
  cbn [shape_layer].
  destruct x as [|a [|a1 [|a2 [|a3 [|a4 r]]]]]; try discriminate.
  destruct (tr && _); [discriminate|].
  destruct (Z.eqb_spec a1 f) as [-> |]; [|discriminate].
  intros [= <-]. exists a, a2, a3. split; reflexivity.
Qed.

Lemma iadd_shape_Ok x identity y : iadd_shape x identity = Ok y -> y = x.
Proof.
  unfold iadd_shape. destruct (expands_onto _ _); [|discriminate].
  now intros [= <-].
Qed.

(** Whatever the projection, a bottleneck block that returns has been given
    [(n, in_channels, h, w)] and returns the shape of its main path. *)
Lemma ResNetDeepBlock_returns tr cin mid proj s x y :
  ResNetDeepBlock_forward tr (ResNetDeepBlock.init cin mid proj s) x = Ok y ->
  exists n h w,
    x = [n; cin; h; w] /\ y = [n; mid * 4; strided h s; strided w s].
Proof.
  unfold ResNetDeepBlock_forward.
  cbn [ResNetDeepBlock.init ResNetDeepBlock.conv1 ResNetDeepBlock.bn1
       ResNetDeepBlock.conv2 ResNetDeepBlock.bn2 ResNetDeepBlock.conv3
       ResNetDeepBlock.bn3 ResNetDeepBlock.relu
       ResNetDeepBlock.identity_downsample apply_layer Tensor_Shape clone iadd].
  intros E.
  apply bind_Ok in E as (x1 & C1 & E). apply bind_Ok in E as (x2 & B1 & E).
  apply bind_Ok in E as (x3 & R1 & E). apply bind_Ok in E as (x4 & C2 & E).
  apply bind_Ok in E as (x5 & B2 & E). apply bind_Ok in E as (x6 & R2 & E).
  apply bind_Ok in E as (x7 & C3 & E). apply bind_Ok in E as (x8 & B3 & E).
  apply bind_Ok in E as (i & _ & E). apply bind_Ok in E as (x9 & A & E).
  apply bind_Ok in E as (x10 & R3 & E).
  apply iadd_shape_Ok in A. rewrite relu_shape in R1, R2, R3.
  injection R1 as <-. injection R2 as <-. injection R3 as <-.
  injection E as <-. subst x9.
  apply bn_Ok in B3 as (n & h3 & w3 & -> & ->).
  apply conv_Ok_4d in C3 as (h2 & w2 & -> & _ & -> & ->).
  apply bn_Ok in B2 as (n2 & h2' & w2' & -> & E2).
  injection E2 as ? ? ?; subst.
  apply conv_Ok_4d in C2 as (h1 & w1 & -> & _ & -> & ->).
  apply bn_Ok in B1 as (n1 & h1' & w1' & -> & E1).
  injection E1 as ? ? ?; subst.
  apply conv_Ok_4d in C1 as (h & w & -> & _ & -> & ->).
  eexists _, h, w. split; [reflexivity|].
  now rewrite !conv_out_1x1, !conv_out_3x3, !strided_1.
Qed.

(** C4.  The bottleneck block applies, in this order: the 1x1 convolution to
    the intermediate width, normalization, activation, the 3x3 convolution
    at the block's stride, normalization, activation, the 1x1 convolution
    to four times the intermediate width, normalization, and only then the
    addition of the identity (the clone of the input, passed through the
    projection when one was supplied) and the last activation.  Whenever it
    returns, on an input [(n, in_channels, h, w)], its result has four times
    the intermediate width as channels and the extents [h] and [w] reduced
    by the stride; and it does return when it carries the builder's
    projection. *)
Theorem deep_block_forward training cin mid stride proj :
  ResNetDeepBlock_forward training
    (ResNetDeepBlock.init cin mid proj stride) Input
  = Ok (Apply ReLU
          (IAdd
             (Apply (BatchNorm2d (mid * 4))
                (Apply (Conv2d mid (mid * 4) 1 1 0 false)
                   (Apply ReLU
                      (Apply (BatchNorm2d mid)
                         (Apply (Conv2d mid mid 3 stride 1 false)
                            (Apply ReLU
                               (Apply (BatchNorm2d mid)
                                  (Apply (Conv2d cin mid 1 1 0 false)
                                     Input))))))))
             (project proj (Clone Input)))) /\
  (forall x y,
      ResNetDeepBlock_forward training
        (ResNetDeepBlock.init cin mid proj stride) x = Ok y ->
      exists n h w,
        x = [n; cin; h; w] /\
        y = [n; mid * 4; strided h stride; strided w stride]) /\
  (forall n h w,
      1 <= stride -> 1 <= h -> 1 <= w -> batch_ok training n ->
      ResNetDeepBlock_forward training
        (ResNetDeepBlock.init cin mid
           (Some (projection cin (mid * 4) stride)) stride) [n; cin; h; w]
      = Ok [n; mid * 4; strided h stride; strided w stride]).
Proof.
  split; [|split].
  - unfold ResNetDeepBlock_forward.
    cbn [ResNetDeepBlock.init ResNetDeepBlock.conv1 ResNetDeepBlock.bn1
         ResNetDeepBlock.conv2 ResNetDeepBlock.bn2 ResNetDeepBlock.conv3
         ResNetDeepBlock.bn3 ResNetDeepBlock.relu
         ResNetDeepBlock.identity_downsample
         apply_layer Tensor_Expr clone iadd bind].
    destruct proj as [m |]; [rewrite Sequential_forward_chain|]; reflexivity.
  - intros x y. apply ResNetDeepBlock_returns.
  - intros n h w Hs Hh Hw Hb.
    apply ResNetDeepBlock_shape; auto with shapes.
Qed.

Lemma deep_block_forward_witness :
  ResNetDeepBlock_forward true
    (ResNetDeepBlock.init 64 64 (Some (projection 64 (64 * 4) 2)) 2)
    [16; 64; 56; 56]
  = Ok [16; 64 * 4; strided 56 2; strided 56 2].
Proof.
  apply (deep_block_forward true 64 64 2 None); [lia | lia | lia |].
  right. lia.
Defined.

(** C5.  The basic block applies a 3x3 convolution, normalization and the
    activation, then a second 3x3 convolution and normalization without
    activation; the clone of the input goes through the projection when one
    was supplied and is left as it is otherwise; the two are added, the
    activation is applied to the sum, and the sum is returned. *)
Theorem basic_block_forward training cin cout stride proj :
  ResNetBlock_forward training (ResNetBlock.init cin cout stride proj) Input
  = Ok (Apply ReLU
          (IAdd
             (Apply (BatchNorm2d cout)
                (Apply (Conv2d cout cout 3 1 1 false)
                   (Apply ReLU
                      (Apply (BatchNorm2d cout)
                         (Apply (Conv2d cin cout 3 stride 1 false) Input)))))
             (project proj (Clone Input)))).
Proof.
  unfold ResNetBlock_forward.
  cbn [ResNetBlock.init ResNetBlock.conv_block_1 ResNetBlock.conv_block_2
       ResNetBlock.relu ResNetBlock.identity_downscale
       Sequential_forward apply_layer Tensor_Expr clone iadd bind].
  destruct proj as [[|l m] |]; cbn [truthy];
    rewrite ?Sequential_forward_chain; reflexivity.
Qed.

(** ** C6: a block without the projection it needs *)

Lemma strided_2_lt h : 2 <= h -> strided h 2 < h.
Proof.
  intros Hh. unfold strided.
  assert ((h - 1) / 2 < h - 1) by (apply Z.div_lt; lia). lia.
Qed.

(** The claim as stated fails on the code: in-place addition broadcasts the
    identity onto the main path whenever each of its extents is the main
    path's or 1.  A block of stride 2 without projection returns on a 1x1
    map (a window of stride 2 leaves one cell of one), and a block from 1
    to 64 channels without projection returns on every map, the single
    input channel being added to each of the 64. *)
Lemma unprojected_block_may_return :
  ResNetBlock_forward true (ResNetBlock.init 64 64 2 None) [2; 64; 1; 1]
    = Ok [2; 64; 1; 1] /\
  ResNetBlock_forward true (ResNetBlock.init 1 64 1 None) [16; 1; 56; 56]
    = Ok [16; 64; 56; 56] /\
  ~ (forall training cin cout stride (x : Shape),
        stride = 2 \/ cin <> cout ->
        ResNetBlock_forward training (ResNetBlock.init cin cout stride None) x
        = Raise ShapeMismatchAtAdd).
Proof.
  split; [reflexivity|]. split; [reflexivity|].
  intros H. specialize (H true 1 64 1 [16; 1; 56; 56]).
  discriminate H. right. lia.
Qed.

(** C6 (amended).  A basic block built without projection, run on an input
    [(n, in_channels, h, w)] on which its main path succeeds, fails with the
    shape mismatch of the additive merge when it has stride 2 and the map
    has more than one cell ([h >= 2] or [w >= 2]), and when its input and
    output widths differ and the input width is not 1.  (On a 1x1 map, and
    from a single input channel, the addition broadcasts and the block
    returns.) *)
Theorem unprojected_block_fails_at_merge training cin cout stride n h w :
  1 <= stride -> 1 <= h -> 1 <= w ->
  stat_ok training n (strided h stride) (strided w stride) ->
  (stride = 2 /\ (2 <= h \/ 2 <= w)) \/ (cin <> cout /\ cin <> 1) ->
  ResNetBlock_forward training (ResNetBlock.init cin cout stride None)
    [n; cin; h; w]
  = Raise ShapeMismatchAtAdd.
Proof.
  intros Hs Hh Hw Hb Hcase. unfold ResNetBlock_forward.
  cbn [ResNetBlock.init ResNetBlock.conv_block_1 ResNetBlock.conv_block_2
       ResNetBlock.relu ResNetBlock.identity_downscale truthy].
  do 12 shape_step.
  cbn [bind iadd Tensor_Shape clone]. unfold iadd_shape.
  cbn [rev app expands_onto].
  assert (E : ((w =? strided w stride) || (w =? 1))
              && (((h =? strided h stride) || (h =? 1))
                  && (((cin =? cout) || (cin =? 1))
                      && (((n =? n) || (n =? 1)) && true))) = false).
  { destruct Hcase as [[-> [Hh2 | Hw2]] | [Hc Hc1]].
    - pose proof (strided_2_lt h Hh2).
      destruct (Z.eqb_spec h (strided h 2)); [lia|].
      destruct (Z.eqb_spec h 1); [lia|]. cbn. apply andb_false_r.
    - pose proof (strided_2_lt w Hw2).
      destruct (Z.eqb_spec w (strided w 2)); [lia|].
      destruct (Z.eqb_spec w 1); [lia|]. reflexivity.
    - destruct (Z.eqb_spec cin cout); [contradiction|].
      destruct (Z.eqb_spec cin 1); [contradiction|]. cbn.
      now rewrite !andb_false_r. }
  rewrite E. reflexivity.
Qed.

Lemma unprojected_block_fails_at_merge_witness :
  ResNetBlock_forward true (ResNetBlock.init 64 64 2 None) [16; 64; 56; 56]
    = Raise ShapeMismatchAtAdd /\
  ResNetBlock_forward true (ResNetBlock.init 64 128 1 None) [16; 64; 56; 56]
    = Raise ShapeMismatchAtAdd.
Proof.
  split.
  - apply (unprojected_block_fails_at_merge true 64 64 2 16 56 56);
      [lia | lia | lia | reflexivity | left; lia].
  - apply (unprojected_block_fails_at_merge true 64 128 1 16 56 56);
      [lia | lia | lia | reflexivity | right; lia].
Defined.

(** ** C7: construction with unusable parameters *)

(** The claim as stated fails on the code: nothing checks the list of
    counts.  A list of five counts and a list of counts below 1 both yield
    a network, and that network runs. *)
Lemma unchecked_counts_are_accepted :
  (exists net,
      ResNet_init 3 36 [2; 2; 2; 2; 2] ResNetBlock_class = Ok net /\
      ResNet_forward true net [16; 3; 224; 224] = Ok [16; 36]) /\
  (exists net,
      ResNet_init 3 36 [0; -1; 0; -5] ResNetDeepBlock_class = Ok net /\
      ResNet_forward true net [16; 3; 224; 224] = Ok [16; 36]).
Proof.
  split; eexists; (split; [reflexivity | vm_compute; reflexivity]).
Qed.

(** C7 (amended).  For a positive number of input channels and of classes,
    the constructor fails exactly when the list of counts has fewer than
    four entries, with the index error of the first missing entry and
    without returning a network, hence before any forward pass; it accepts
    every list of four or more entries, whatever the counts. *)
Theorem construction_fails_only_on_short_list cin ncls layers block :
  1 <= cin -> 1 <= ncls ->
  match ResNet_init cin ncls layers block with
  | Ok _ => (4 <= List.length layers)%nat
  | Raise e => e = IndexError /\ (List.length layers < 4)%nat
  end.
Proof.
  intros _ _.
  destruct layers as [|n0 [|n1 [|n2 [|n3 rest]]]].
  5: { rewrite ResNet_init_four. cbn [List.length]. lia. }
  all: unfold ResNet_init; cbn [getitem nth_error bind List.length];
    repeat match goal with
           | |- context [create_residual_layer ?b ?o ?c ?s ?i] =>
               destruct (create_residual_layer b o c s i)
           end;
    cbn [bind]; split; [reflexivity | lia].
Qed.

Lemma construction_fails_only_on_short_list_witness :
  match ResNet_init 3 36 [2; 2; 2] ResNetBlock_class with
  | Ok _ => (4 <= List.length [2; 2; 2])%nat
  | Raise e => e = IndexError /\ (List.length [2; 2; 2] < 4)%nat
  end /\
  match ResNet_init 3 36 [2; 2; 2; 2; 2] ResNetBlock_class with
  | Ok _ => (4 <= List.length [2; 2; 2; 2; 2])%nat
  | Raise e => e = IndexError /\ (List.length [2; 2; 2; 2; 2] < 4)%nat
  end.
Proof.
  split.
  - apply (construction_fails_only_on_short_list 3 36 [2; 2; 2]
             ResNetBlock_class); lia.
  - apply (construction_fails_only_on_short_list 3 36 [2; 2; 2; 2; 2]
             ResNetBlock_class); lia.
Defined.

(** ** C8: the blocks after the first *)

(** C8.  In a stage of either variant, every block after the first is built
    by the two-argument call: stride 1, no projection, and input width equal
    to the output width, which is the stage's width times the expansion
    factor (the width itself for basic blocks, four times the width for
    bottleneck blocks).  Such a block returns a map of the shape it was
    given. *)
Theorem later_blocks_keep_shape block out c stride st b :
  In b (tl (fst (create_residual_layer block out c stride st))) ->
  b = match block with
      | ResNetBlock_class => Basic (ResNetBlock.init out out 1 None)
      | ResNetDeepBlock_class =>
          Deep (ResNetDeepBlock.init (out * 4) out None 1)
      end /\
  forall training n h w,
    1 <= h -> 1 <= w -> stat_ok training n h w ->
    Block_forward training b [n; out * expansion_of block; h; w]
    = Ok [n; out * expansion_of block; h; w].
Proof.
  intros Hin.
  assert (Hb : b = match block with
                   | ResNetBlock_class => Basic (ResNetBlock.init out out 1 None)
                   | ResNetDeepBlock_class =>
                       Deep (ResNetDeepBlock.init (out * 4) out None 1)
                   end).
  { destruct block;
      [rewrite create_residual_layer_basic in Hin
      | rewrite create_residual_layer_deep in Hin];
      cbn [fst tl] in Hin; now apply repeat_spec in Hin. }
  split; [exact Hb|]. intros training n h w Hh Hw Hs. subst b.
  destruct block; cbn [Block_forward].
  - rewrite expansion_of_basic, Z.mul_1_r.
    rewrite ResNetBlock_shape; rewrite ?strided_1; auto; lia.
  - rewrite expansion_of_deep.
    rewrite ResNetDeepBlock_shape; rewrite ?strided_1; auto; lia.
Qed.

Lemma later_blocks_keep_shape_witness :
  Block_forward true (Deep (ResNetDeepBlock.init (128 * 4) 128 None 1))
    [16; 128 * expansion_of ResNetDeepBlock_class; 28; 28]
  = Ok [16; 128 * expansion_of ResNetDeepBlock_class; 28; 28].
Proof.
  refine (proj2 (later_blocks_keep_shape ResNetDeepBlock_class 128 3 2 256
                   (Deep (ResNetDeepBlock.init (128 * 4) 128 None 1)) _)
            true 16 28 28 _ _ _).
  - vm_compute. left. reflexivity.
  - lia.
  - lia.
  - reflexivity.
Defined.

(** ** C9: input width of a basic stage *)

(** C9.  For basic blocks the builder gives the first block of a stage the
    stage's width as input width when that width is 64 and half of it
    (rounded down) otherwise.  The stage is the same whatever
    [self.in_channels] holds, and the builder leaves that attribute as it
    found it. *)
Theorem basic_stage_input_width out c stride st :
  (exists proj rest,
      create_residual_layer ResNetBlock_class out c stride st
      = (Basic (ResNetBlock.init (if out =? 64 then out else out / 2)
                  out stride proj) :: rest, st)) /\
  (forall st',
      fst (create_residual_layer ResNetBlock_class out c stride st')
      = fst (create_residual_layer ResNetBlock_class out c stride st)) /\
  snd (create_residual_layer ResNetBlock_class out c stride st) = st.
Proof.
  split; [|split].
  - rewrite create_residual_layer_basic. eauto.
  - intros st'. now rewrite !create_residual_layer_basic.
  - now rewrite create_residual_layer_basic.
Qed.

(** ** C10: number of blocks in a stage *)

(** C10.  For every count [c], of either sign, the stage holds [max 1 c]
    blocks: a first block, then one block for each of the [c - 1] turns of
    the loop, all from the same two-argument call; for a count of 0 the
    stage has one block. *)
Theorem stage_length block out c stride st :
  Z.of_nat (List.length (fst (create_residual_layer block out c stride st)))
    = Z.max 1 c /\
  (exists first,
      fst (create_residual_layer block out c stride st)
      = first :: repeat (call2 block (out * expansion_of block) out)
                   (Z.to_nat (c - 1))) /\
  List.length (fst (create_residual_layer block out 0 stride st)) = 1%nat.
Proof.
  destruct block.
  - rewrite !create_residual_layer_basic. cbn [fst List.length].
    rewrite repeat_length, expansion_of_basic, Z.mul_1_r.
    split; [lia|]. split; [eauto | reflexivity].
  - rewrite !create_residual_layer_deep. cbn [fst List.length].
    rewrite repeat_length, expansion_of_deep.
    split; [lia|]. split; [eauto | reflexivity].
Qed.

(** * Beyond the claims: outcomes of the forward methods *)

(** ** Where batch norm refuses its input *)

Lemma bind_if_raise {A B : Type} (c : bool) (e : PyError) (v : A)
    (k : A -> Res B) :
  bind (if c then Raise e else Ok v) k = if c then Raise e else k v.
Proof. now destruct c. Qed.

Lemma bn_outcome tr c n h w :
  shape_layer tr (BatchNorm2d c) [n; c; h; w]
  = if tr && (n * h * w =? 1) then Raise BatchStatError else Ok [n; c; h; w].
Proof. cbn [shape_layer]. now rewrite Z.eqb_refl. Qed.

Lemma one_value_per_channel n h w :
  1 <= h -> 1 <= w -> n * h * w = 1 -> n = 1 /\ h = 1 /\ w = 1.
Proof.
  intros Hh Hw E.
  assert (Hn : 1 <= n) by nia.
  assert (h = 1) by nia. subst h.
  assert (w = 1) by nia. subst w. lia.
Qed.

Lemma strided_2_le h m : 1 <= h -> (strided h 2 <= m <-> h <= 2 * m).
Proof.
  intros Hh. unfold strided.
  pose proof (Z.div_mod (h - 1) 2 ltac:(lia)) as D.
  pose proof (Z.mod_pos_bound (h - 1) 2 ltac:(lia)) as B. lia.
Qed.

(** Halving never takes a map out of the range batch norm accepts: if the
    halved map is accepted, so is the map. *)
Lemma stat_ok_before_halving tr n h w :
  1 <= h -> 1 <= w ->
  stat_ok tr n (strided h 2) (strided w 2) -> stat_ok tr n h w.
Proof.
  unfold stat_ok. intros Hh Hw E. destruct tr; [|reflexivity].
  cbn [andb] in *. destruct (Z.eqb_spec (n * h * w) 1) as [E1|]; [|reflexivity].
  apply one_value_per_channel in E1 as (-> & -> & ->); [|assumption..].
  discriminate E.
Qed.

(** ** Outcome of a block, of a stage *)

Lemma ResNetBlock_outcome tr cin cout s proj n h w :
  1 <= s -> 1 <= h -> 1 <= w ->
  proj = Some (projection cin cout s) \/ (proj = None /\ s = 1 /\ cin = cout) ->
  ResNetBlock_forward tr (ResNetBlock.init cin cout s proj) [n; cin; h; w]
  = if tr && (n * strided h s * strided w s =? 1) then Raise BatchStatError
    else Ok [n; cout; strided h s; strided w s].
Proof.
  intros Hs Hh Hw Hp.
  destruct (tr && (n * strided h s * strided w s =? 1)) eqn:E.
  - unfold ResNetBlock_forward.
    cbn [ResNetBlock.init ResNetBlock.conv_block_1 Sequential_forward
         apply_layer Tensor_Shape].
    rewrite conv3x3_shape by lia. cbn [bind]. rewrite bn_outcome, E.
    reflexivity.
  - now apply ResNetBlock_shape.
Qed.

Lemma ResNetDeepBlock_outcome tr cin mid s proj n h w :
  1 <= s -> 1 <= h -> 1 <= w ->
  proj = Some (projection cin (mid * 4) s)
  \/ (proj = None /\ s = 1 /\ cin = mid * 4) ->
  ResNetDeepBlock_forward tr (ResNetDeepBlock.init cin mid proj s) [n; cin; h; w]
  = if (tr && (n * h * w =? 1))
       || (tr && (n * strided h s * strided w s =? 1))
    then Raise BatchStatError
    else Ok [n; mid * 4; strided h s; strided w s].
Proof.
  intros Hs Hh Hw Hp.
  destruct (tr && (n * h * w =? 1)) eqn:E1;
    [|destruct (tr && (n * strided h s * strided w s =? 1)) eqn:E2];
    cbn [orb].
  - unfold ResNetDeepBlock_forward.
    cbn [ResNetDeepBlock.init ResNetDeepBlock.conv1 ResNetDeepBlock.bn1
         apply_layer Tensor_Shape].
    rewrite conv1x1_shape by lia. cbn [bind].
    rewrite !strided_1, bn_outcome, E1. reflexivity.
  - unfold ResNetDeepBlock_forward.
    cbn [ResNetDeepBlock.init ResNetDeepBlock.conv1 ResNetDeepBlock.bn1
         ResNetDeepBlock.conv2 ResNetDeepBlock.bn2 ResNetDeepBlock.relu
         apply_layer Tensor_Shape].
    rewrite conv1x1_shape by lia. cbn [bind].
    rewrite !strided_1, bn_outcome, E1. cbn [bind].
    rewrite relu_shape. cbn [bind].
    rewrite conv3x3_shape by lia. cbn [bind]. rewrite bn_outcome, E2.
    reflexivity.
  - now apply ResNetDeepBlock_shape.
Qed.

Lemma deep_stage_outcome tr out c s st n h w :
  1 <= s -> 1 <= h -> 1 <= w ->
  Stage_forward tr (fst (create_residual_layer ResNetDeepBlock_class out c s st))
    [n; st; h; w]
  = if (tr && (n * h * w =? 1))
       || (tr && (n * strided h s * strided w s =? 1))
    then Raise BatchStatError
    else Ok [n; out * 4; strided h s; strided w s].
Proof.
  intros Hs Hh Hw. rewrite create_residual_layer_deep.
  cbn [fst Stage_forward Block_forward].
  rewrite ResNetDeepBlock_outcome; try assumption.
  - rewrite bind_if_raise.
    destruct (tr && (n * h * w =? 1)) eqn:E1; [reflexivity|].
    destruct (tr && (n * strided h s * strided w s =? 1)) eqn:E2;
      [reflexivity|]. cbn [orb].
    apply Stage_forward_repeat. cbn [Block_forward].
    rewrite ResNetDeepBlock_shape;
      rewrite ?strided_1; auto with shapes; lia.
  - destruct (Z.eqb_spec s 1) as [-> | Hs1];
      destruct (Z.eqb_spec st (out * 4)) as [-> | Hst]; cbn; auto.
Qed.

Lemma basic_stage_outcome tr out c s st n cin h w :
  1 <= s -> 1 <= h -> 1 <= w ->
  s <> 1 \/ out = 64 ->
  cin = (if out =? 64 then out else out / 2) ->
  Stage_forward tr (fst (create_residual_layer ResNetBlock_class out c s st))
    [n; cin; h; w]
  = if tr && (n * strided h s * strided w s =? 1) then Raise BatchStatError
    else Ok [n; out; strided h s; strided w s].
Proof.
  intros Hs Hh Hw Hcase ->. rewrite create_residual_layer_basic.
  cbn [fst Stage_forward Block_forward].
  rewrite ResNetBlock_outcome; try assumption.
  - rewrite bind_if_raise.
    destruct (tr && (n * strided h s * strided w s =? 1)) eqn:E;
      [reflexivity|].
    apply Stage_forward_repeat. cbn [Block_forward].
    rewrite ResNetBlock_shape;
      rewrite ?strided_1; auto with shapes; lia.
  - destruct (Z.eqb_spec s 1) as [-> | Hs1]; [right | now left].
    destruct Hcase as [? | ->]; [lia|]. now rewrite Z.eqb_refl.
Qed.

(** ** Outcome of the network *)

(** Five halvings (stem convolution, max-pool, three strided stages) bring
    an extent to 1 exactly when it is at most 32. *)
Lemma five_halvings h :
  1 <= h ->
  let h1 := strided h 2 in
  let h2 := strided h1 2 in
  let h3 := strided h2 2 in
  let h4 := strided h3 2 in
  let h5 := strided h4 2 in
  (1 <= h1 /\ 1 <= h2 /\ 1 <= h3 /\ 1 <= h4 /\ 1 <= h5) /\
  (h1 = 1 -> h <= 32) /\ (h2 = 1 -> h <= 32) /\ (h3 = 1 -> h <= 32) /\
  (h4 = 1 -> h <= 32) /\ (h5 = 1 <-> h <= 32).
Proof.
  intros Hh h1 h2 h3 h4 h5.
  assert (P1 : 1 <= h1) by (apply strided_pos; lia).
  assert (P2 : 1 <= h2) by (apply strided_pos; lia).
  assert (P3 : 1 <= h3) by (apply strided_pos; lia).
  assert (P4 : 1 <= h4) by (apply strided_pos; lia).
  assert (P5 : 1 <= h5) by (apply strided_pos; lia).
  pose proof (fun m => strided_2_le h m Hh) as L1.
  pose proof (fun m => strided_2_le h1 m P1) as L2.
  pose proof (fun m => strided_2_le h2 m P2) as L3.
  pose proof (fun m => strided_2_le h3 m P3) as L4.
  pose proof (fun m => strided_2_le h4 m P4) as L5.
  fold h1 in L1. fold h2 in L2. fold h3 in L3. fold h4 in L4. fold h5 in L5.
  pose proof (L1 1). pose proof (L1 2). pose proof (L1 4). pose proof (L1 8).
  pose proof (L1 16). pose proof (L2 1). pose proof (L2 2). pose proof (L2 4).
  pose proof (L2 8). pose proof (L3 1). pose proof (L3 2). pose proof (L3 4).
  pose proof (L4 1). pose proof (L4 2). pose proof (L5 1).
  repeat split; try assumption; lia.
Qed.

Lemma squeeze_single c : c <> 1 -> squeeze_shape [1; c; 1; 1] = [c].
Proof.
  intros Hc. unfold squeeze_shape. cbn [filter].
  change (1 =? 1) with true. cbn [negb].
  destruct (Z.eqb_spec c 1); [contradiction|]. reflexivity.
Qed.

Lemma linear_shape_1d fin fout : linear_shape fin fout [fin] = Ok [fout].
Proof. cbn [linear_shape]. now rewrite Z.eqb_refl. Qed.

Lemma stat_test_false n h w :
  1 <= h -> 1 <= w -> n <> 1 \/ h <> 1 \/ w <> 1 -> (n * h * w =? 1) = false.
Proof.
  intros Hh Hw Hne. destruct (Z.eqb_spec (n * h * w) 1) as [E|]; [|reflexivity].
  apply one_value_per_channel in E; [|assumption..]. lia.
Qed.

(** Either some test of batch norm fires, and the chain of tests raises
    whichever fires first; or none does. *)
Ltac settle_stat_tests :=
  first
    [ (* some extent above 32, or more than one image: no test fires *)
      repeat match goal with
             | |- context [Z.eqb (?n * ?a * ?b) 1] =>
                 rewrite (stat_test_false n a b) by lia
             end;
      cbn [orb]; reflexivity
    | (* one image of at most 32 by 32: the last test fires *)
      repeat match goal with
             | |- context [Z.eqb (?n * ?a * ?b) 1] =>
                 destruct (Z.eqb_spec (n * a * b) 1);
                 cbn [orb]; [reflexivity|]
             end;
      exfalso; lia ].

Lemma ResNet_forward_chain tr cin ncls n0 n1 n2 n3 rest block n h w :
  1 <= h -> 1 <= w ->
  exists net,
    ResNet_init cin ncls (n0 :: n1 :: n2 :: n3 :: rest) block = Ok net /\
    ResNet_forward tr net [n; cin; h; w]
    = if tr && (n =? 1) && (h <=? 32) && (w <=? 32)
      then Raise BatchStatError
      else Ok (if n =? 1 then [ncls] else [n; ncls]).
Proof.
  intros Hh Hw. eexists. split; [apply ResNet_init_four|].
  destruct (five_halvings h Hh) as ((H1 & H2 & H3 & H4 & H5) & Hh'). 
  destruct (five_halvings w Hw) as ((W1 & W2 & W3 & W4 & W5) & Hw').
  cbv zeta in *.
  unfold ResNet_forward.
  cbn [ResNet.initial_layers ResNet.layer_64 ResNet.layer_128 ResNet.layer_256
       ResNet.layer_512 ResNet.global_avg_pool ResNet.fc Sequential_forward
       apply_layer Tensor_Shape squeeze].
  rewrite conv7x7_shape by lia. cbn [bind].
  rewrite bn_outcome, bind_if_raise. cbv beta.
  rewrite maxpool3x3_shape by lia. cbn [bind]. rewrite relu_shape. cbn [bind].
  rewrite bind_if_raise. cbv beta.
  assert (Hend : forall c, 2 <= c ->
    (x <- shape_layer tr (AdaptiveAvgPool2d 1 1)
            [n; c; strided (strided (strided (strided (strided h 2) 2) 2) 2) 2;
             strided (strided (strided (strided (strided w 2) 2) 2) 2) 2] ;;
     x0 <- shape_layer tr (Linear c ncls) (squeeze_shape x) ;; Ok x0)
    = Ok (if n =? 1 then [ncls] else [n; ncls])).
  { intros c Hc. rewrite avgpool_shape by lia. cbn [bind].
    destruct (Z.eqb_spec n 1) as [-> | Hn].
    - rewrite squeeze_single by lia. cbn [shape_layer].
      now rewrite linear_shape_1d.
    - rewrite squeeze_pooled by lia. cbn [shape_layer].
      now rewrite linear_shape_2d. }
  destruct block.
  - change (is_deep ResNetBlock_class) with false. cbv iota.
    rewrite (basic_stage_outcome tr 64) by (auto; lia).
    rewrite !strided_1, bind_if_raise. cbv beta.
    rewrite (basic_stage_outcome tr 128) by (auto; lia).
    rewrite bind_if_raise. cbv beta.
    rewrite (basic_stage_outcome tr 256) by (auto; lia).
    rewrite bind_if_raise. cbv beta.
    rewrite (basic_stage_outcome tr 512) by (auto; lia).
    rewrite bind_if_raise. cbv beta. rewrite Hend by lia.
    destruct tr; cbn [andb]; [|reflexivity].
    destruct (Z.eqb_spec n 1) as [-> | Hn1];
      [destruct (Z.leb_spec h 32); [destruct (Z.leb_spec w 32)|]|];
      cbn [andb]; settle_stat_tests.
  - change (is_deep ResNetDeepBlock_class) with true. cbv iota.
    rewrite (deep_stage_outcome tr 64) by lia.
    rewrite !strided_1, bind_if_raise. cbv beta. change (64 * 4) with 256.
    rewrite (deep_stage_outcome tr 128) by lia.
    rewrite bind_if_raise. cbv beta. change (128 * 4) with 512.
    rewrite (deep_stage_outcome tr 256) by lia.
    rewrite bind_if_raise. cbv beta. change (256 * 4) with 1024.
    rewrite (deep_stage_outcome tr 512) by lia.
    rewrite bind_if_raise. cbv beta. change (512 * 4) with 2048.
    rewrite Hend by lia.
    destruct tr; cbn [andb]; [|reflexivity].
    destruct (Z.eqb_spec n 1) as [-> | Hn1];
      [destruct (Z.leb_spec h 32); [destruct (Z.leb_spec w 32)|]|];
      cbn [andb]; settle_stat_tests.
Qed.

(** X1.  Batches of two or more images.  Whatever the four counts, the
    variant, the mode and the size of the (non-empty) images, [forward]
    returns one row of [num_classes] scores per image. *)
Theorem forward_on_batches tr cin ncls n0 n1 n2 n3 rest block n h w :
  1 <= cin -> 1 <= ncls -> 2 <= n -> 1 <= h -> 1 <= w ->
  exists net,
    ResNet_init cin ncls (n0 :: n1 :: n2 :: n3 :: rest) block = Ok net /\
    ResNet_forward tr net [n; cin; h; w] = Ok [n; ncls].
Proof.
  intros _ _ Hn Hh Hw.
  destruct (ResNet_forward_chain tr cin ncls n0 n1 n2 n3 rest block n h w Hh Hw)
    as (net & Hnet & Hf).
  exists net. split; [exact Hnet|]. rewrite Hf.
  destruct (Z.eqb_spec n 1); [lia|]. now rewrite andb_false_r.
Qed.

Lemma forward_on_batches_witness :
  exists net,
    ResNet_init 3 36 [3; 4; 6; 3] ResNetBlock_class = Ok net /\
    ResNet_forward true net [8; 3; 100; 75] = Ok [8; 36].
Proof.
  apply (forward_on_batches true 3 36 3 4 6 3 [] ResNetBlock_class 8 100 75);
    lia.
Defined.

(** X2.  A batch of one image.  In evaluation mode, and in training mode
    when the image is wider or higher than 32, [forward] returns the single
    axis [(num_classes)].  In training mode on an image of at most 32 by 32
    it raises batch norm's error: the halvings leave one cell per channel,
    too few for batch statistics. *)
Theorem forward_on_single_image cin ncls n0 n1 n2 n3 rest block h w :
  1 <= cin -> 1 <= ncls -> 1 <= h -> 1 <= w ->
  exists net,
    ResNet_init cin ncls (n0 :: n1 :: n2 :: n3 :: rest) block = Ok net /\
    ResNet_forward false net [1; cin; h; w] = Ok [ncls] /\
    (33 <= h \/ 33 <= w -> ResNet_forward true net [1; cin; h; w] = Ok [ncls]) /\
    (h <= 32 -> w <= 32 ->
     ResNet_forward true net [1; cin; h; w] = Raise BatchStatError).
Proof.
  intros _ _ Hh Hw.
  destruct (ResNet_forward_chain false cin ncls n0 n1 n2 n3 rest block 1 h w
              Hh Hw) as (net & Hnet & Hf).
  destruct (ResNet_forward_chain true cin ncls n0 n1 n2 n3 rest block 1 h w
              Hh Hw) as (net' & Hnet' & Ht).
  rewrite Hnet in Hnet'. injection Hnet' as <-.
  exists net. split; [exact Hnet|]. split; [exact Hf|].
  rewrite Ht. change (1 =? 1) with true. cbn [andb]. split.
  - intros [H | H].
    + destruct (Z.leb_spec h 32); [lia|]. reflexivity.
    + destruct (Z.leb_spec w 32); [lia|]. now rewrite andb_false_r.
  - intros H H'. destruct (Z.leb_spec h 32); [|lia].
    destruct (Z.leb_spec w 32); [|lia]. reflexivity.
Qed.

Lemma forward_on_single_image_witness :
  exists net,
    ResNet_init 3 10 [2; 2; 2; 2] ResNetDeepBlock_class = Ok net /\
    ResNet_forward true net [1; 3; 64; 48] = Ok [10] /\
    ResNet_forward true net [1; 3; 32; 32] = Raise BatchStatError.
Proof.
  destruct (forward_on_single_image 3 10 2 2 2 2 [] ResNetDeepBlock_class 64 48)
    as (net & Hnet & _ & Hbig & _); [lia..|].
  destruct (forward_on_single_image 3 10 2 2 2 2 [] ResNetDeepBlock_class 32 32)
    as (net' & Hnet' & _ & _ & Hsmall); [lia..|].
  rewrite Hnet in Hnet'. injection Hnet' as <-.
  exists net. split; [exact Hnet|]. split.
  - apply Hbig. left. lia.
  - apply Hsmall; lia.
Defined.

(** ** What the network accepts *)

Lemma window2d_Ok_fits k s p h w hw :
  window2d k s p h w = Ok hw -> k <= h + 2 * p /\ k <= w + 2 * p.
Proof.
  unfold window2d. destruct (s <=? 0); [discriminate|].
  destruct (Z.ltb_spec (h + 2 * p) k); [discriminate|].
  destruct (Z.ltb_spec (w + 2 * p) k); [discriminate|]. intros _. lia.
Qed.

Lemma conv_Ok_4d_fits tr cin cout k s p b x n c h w :
  shape_layer tr (Conv2d cin cout k s p b) x = Ok [n; c; h; w] ->
  exists h0 w0,
    x = [n; cin; h0; w0] /\ k <= h0 + 2 * p /\ k <= w0 + 2 * p.
Proof.
  cbn [shape_layer].
  destruct x as [|a [|a1 [|a2 [|a3 [|a4 r]]]]]; try discriminate.
  - destruct (Z.eqb_spec a cin); [|discriminate].
    destruct (window2d k s p a1 a2); cbn; discriminate.
  - destruct (Z.eqb_spec a1 cin) as [-> |]; [|discriminate].
    destruct (window2d k s p a2 a3) as [hw |] eqn:E; cbn; [|discriminate].
    apply window2d_Ok_fits in E. intros [= <- _ _ _].
    exists a2, a3. split; [reflexivity | exact E].
Qed.

Lemma ResNet_init_Ok cin ncls layers block net :
  ResNet_init cin ncls layers block = Ok net ->
  exists n0 n1 n2 n3 rest, layers = n0 :: n1 :: n2 :: n3 :: rest.
Proof.
  destruct layers as [|n0 [|n1 [|n2 [|n3 rest]]]]; [| | | |eauto 6];
    unfold ResNet_init; cbn [getitem nth_error bind];
    repeat match goal with
           | |- context [create_residual_layer ?b ?o ?c ?s ?i] =>
               destruct (create_residual_layer b o c s i)
           end;
    cbn [bind]; discriminate.
Qed.

(** X3.  What [forward] never does.  A constructed network returns only on
    an input of four axes whose second axis is [in_channels] and whose two
    spatial axes are non-empty, and what it returns is [(n, num_classes)],
    or [(num_classes)] when [n] is 1; never another shape. *)
Theorem forward_returns_only_on_images tr cin ncls layers block net x y :
  ResNet_init cin ncls layers block = Ok net ->
  ResNet_forward tr net x = Ok y ->
  exists n h w,
    x = [n; cin; h; w] /\ 1 <= h /\ 1 <= w /\
    y = (if n =? 1 then [ncls] else [n; ncls]).
Proof.
  intros Hnet Hf.
  destruct (ResNet_init_Ok _ _ _ _ _ Hnet) as (n0 & n1 & n2 & n3 & rest & ->).
  assert (Hx : exists n h w, x = [n; cin; h; w] /\ 1 <= h /\ 1 <= w).
  { rewrite ResNet_init_four in Hnet. injection Hnet as <-.
    unfold ResNet_forward in Hf.
    cbn [ResNet.initial_layers Sequential_forward apply_layer Tensor_Shape]
      in Hf.
    apply bind_Ok in Hf as (x4 & Hstem & _).
    apply bind_Ok in Hstem as (x1 & Hconv & Hstem).
    apply bind_Ok in Hstem as (x2 & Hbn & _).
    apply bn_Ok in Hbn as (n & h1 & w1 & -> & _).
    apply conv_Ok_4d_fits in Hconv as (h & w & -> & ? & ?).
    exists n, h, w. repeat split; lia. }
  destruct Hx as (n & h & w & -> & Hh & Hw).
  exists n, h, w. repeat split; try assumption.
  destruct (ResNet_forward_chain tr cin ncls n0 n1 n2 n3 rest block n h w Hh Hw)
    as (net' & Hnet' & Hf').
  rewrite Hnet in Hnet'. injection Hnet' as <-.
  rewrite Hf' in Hf. destruct (tr && _ && _ && _); [discriminate|].
  now injection Hf as <-.
Qed.

Lemma forward_returns_only_on_images_witness :
  exists n h w,
    [4; 3; 40; 40] = [n; 3; h; w] /\ 1 <= h /\ 1 <= w /\
    [4; 7] = (if n =? 1 then [7] else [n; 7]).
Proof.
  eapply (forward_returns_only_on_images false 3 7 [1; 1; 1; 1]
            ResNetBlock_class).
  - reflexivity.
  - vm_compute. reflexivity.
Defined.

(** * Beyond the claims: the blocks *)

Ltac invert_main_path :=
  repeat match goal with
         | H : bind _ _ = Ok _ |- _ => apply bind_Ok in H as (? & ? & ?)
         end;
  repeat match goal with
         | H : Ok _ = Ok _ |- _ => injection H as H; subst
         | H : shape_layer _ ReLU _ = Ok _ |- _ =>
             rewrite relu_shape in H
         | H : iadd_shape _ _ = Ok _ |- _ =>
             apply iadd_shape_Ok in H; subst
         end.

(** Whatever the projection, a basic block that returns has been given
    [(n, in_channels, h, w)] and returns the shape of its main path. *)
Lemma ResNetBlock_returns tr cin cout proj s x y :
  ResNetBlock_forward tr (ResNetBlock.init cin cout s proj) x = Ok y ->
  exists n h w,
    x = [n; cin; h; w] /\ y = [n; cout; strided h s; strided w s].
Proof.
  unfold ResNetBlock_forward.
  cbn [ResNetBlock.init ResNetBlock.conv_block_1 ResNetBlock.conv_block_2
       ResNetBlock.relu Sequential_forward apply_layer Tensor_Shape clone iadd].
  intros E. invert_main_path.
  match goal with
  | H1 : shape_layer _ (Conv2d cin cout 3 s 1 false) x = Ok ?a,
    H2 : shape_layer _ (BatchNorm2d cout) ?a = Ok ?b,
    H3 : shape_layer _ (Conv2d cout cout 3 1 1 false) ?b = Ok ?c,
    H4 : shape_layer _ (BatchNorm2d cout) ?c = Ok ?d |- _ =>
      apply bn_Ok in H4 as (n & h2 & w2 & -> & ->);
      apply conv_Ok_4d in H3 as (h1 & w1 & -> & _ & -> & ->);
      apply bn_Ok in H2 as (n' & h1' & w1' & -> & E1);
      injection E1 as ? ? ?; subst;
      apply conv_Ok_4d in H1 as (h & w & -> & _ & -> & ->)
  end.
  eexists _, h, w. split; [reflexivity|].
  now rewrite !conv_out_3x3, !strided_1.
Qed.

(** X4.  Contract of the basic block.  Whenever it returns, whatever
    projection it carries, its input was [(n, in_channels, h, w)] and its
    result is [(n, out_channels, h', w')] with [h'] and [w'] the extents
    reduced by the stride; and with the projection the stage builder
    attaches it does return, on every non-empty map and every batch that
    batch norm accepts. *)
Theorem basic_block_contract tr cin cout stride proj :
  (forall x y,
      ResNetBlock_forward tr (ResNetBlock.init cin cout stride proj) x = Ok y ->
      exists n h w,
        x = [n; cin; h; w] /\
        y = [n; cout; strided h stride; strided w stride]) /\
  (forall n h w,
      1 <= stride -> 1 <= h -> 1 <= w -> batch_ok tr n ->
      ResNetBlock_forward tr
        (ResNetBlock.init cin cout stride
           (Some (projection cin cout stride))) [n; cin; h; w]
      = Ok [n; cout; strided h stride; strided w stride]).
Proof.
  split.
  - intros x y. apply ResNetBlock_returns.
  - intros n h w Hs Hh Hw Hb. apply ResNetBlock_shape; auto with shapes.
Qed.

Lemma basic_block_contract_witness :
  ResNetBlock_forward true
    (ResNetBlock.init 64 128 2 (Some (projection 64 128 2))) [8; 64; 56; 56]
  = Ok [8; 128; strided 56 2; strided 56 2].
Proof.
  apply (basic_block_contract true 64 128 2 None); [lia | lia | lia |].
  right. lia.
Defined.

Lemma strided_of_1 s : 1 <= s -> strided 1 s = 1.
Proof. intros Hs. unfold strided. now rewrite Z.sub_diag, Z.div_0_l by lia. Qed.

(** X5.  Silent broadcasting.  On an input [(n, in_channels, h, w)] whose
    main path succeeds (batch norm accepts the batch: evaluation mode, or
    more than one value per channel after the first convolution), a basic
    block without projection returns the main path's shape, and the
    additive merge reports no mismatch, when its input width is its output
    width or 1 and either its stride is 1 or the map has a single cell: the
    one identity channel is added to every output channel. *)
Theorem unprojected_block_broadcasts tr cin cout stride n h w :
  1 <= cout -> 1 <= stride -> 1 <= h -> 1 <= w ->
  stat_ok tr n (strided h stride) (strided w stride) ->
  cin = cout \/ cin = 1 ->
  stride = 1 \/ (h = 1 /\ w = 1) ->
  ResNetBlock_forward tr (ResNetBlock.init cin cout stride None) [n; cin; h; w]
  = Ok [n; cout; strided h stride; strided w stride].
Proof.
  intros _ Hs Hh Hw Hb Hc Hsp. unfold ResNetBlock_forward.
  cbn [ResNetBlock.init ResNetBlock.conv_block_1 ResNetBlock.conv_block_2
       ResNetBlock.relu ResNetBlock.identity_downscale truthy].
  do 12 shape_step.
  cbn [bind iadd Tensor_Shape clone]. unfold iadd_shape.
  cbn [rev app expands_onto].
  assert (E : ((w =? strided w stride) || (w =? 1))
              && (((h =? strided h stride) || (h =? 1))
                  && (((cin =? cout) || (cin =? 1))
                      && (((n =? n) || (n =? 1)) && true))) = true).
  { rewrite (Z.eqb_refl n). cbn [orb andb].
    assert (Ew : w = strided w stride \/ w = 1)
      by (destruct Hsp as [-> | [_ ->]];
          [left; now rewrite strided_1 | now right]).
    assert (Eh : h = strided h stride \/ h = 1)
      by (destruct Hsp as [-> | [-> _]];
          [left; now rewrite strided_1 | now right]).
    destruct (Z.eqb_spec w (strided w stride)), (Z.eqb_spec w 1),
      (Z.eqb_spec h (strided h stride)), (Z.eqb_spec h 1),
      (Z.eqb_spec cin cout), (Z.eqb_spec cin 1);
      cbn [orb andb]; try reflexivity; exfalso; tauto. }
  rewrite E. reflexivity.
Qed.

Lemma unprojected_block_broadcasts_witness :
  ResNetBlock_forward true (ResNetBlock.init 1 32 1 None) [4; 1; 28; 28]
  = Ok [4; 32; strided 28 1; strided 28 1].
Proof.
  apply (unprojected_block_broadcasts true 1 32 1 4 28 28);
    [lia | lia | lia | lia | reflexivity | right; reflexivity
    | left; reflexivity].
Defined.

(** X6.  The bottleneck block without the projection it needs.  On an input
    [(n, in_channels, h, w)] on which its main path succeeds, a bottleneck
    block built without projection fails at the additive merge when it has
    stride 2 and the map has more than one cell, and when its input width
    is neither four times the intermediate width nor 1. *)
Theorem unprojected_deep_block_fails_at_merge tr cin mid stride n h w :
  1 <= stride -> 1 <= h -> 1 <= w ->
  stat_ok tr n h w ->
  stat_ok tr n (strided h stride) (strided w stride) ->
  (stride = 2 /\ (2 <= h \/ 2 <= w)) \/ (cin <> mid * 4 /\ cin <> 1) ->
  ResNetDeepBlock_forward tr (ResNetDeepBlock.init cin mid None stride)
    [n; cin; h; w]
  = Raise ShapeMismatchAtAdd.
Proof.
  intros Hs Hh Hw Hb Hb' Hcase. unfold ResNetDeepBlock_forward.
  cbn [ResNetDeepBlock.init ResNetDeepBlock.conv1 ResNetDeepBlock.bn1
       ResNetDeepBlock.conv2 ResNetDeepBlock.bn2 ResNetDeepBlock.conv3
       ResNetDeepBlock.bn3 ResNetDeepBlock.relu
       ResNetDeepBlock.identity_downsample].
  repeat shape_step. unfold iadd_shape. cbn [rev app expands_onto].
  assert (E : ((w =? strided w stride) || (w =? 1))
              && (((h =? strided h stride) || (h =? 1))
                  && (((cin =? mid * 4) || (cin =? 1))
                      && (((n =? n) || (n =? 1)) && true))) = false).
  { destruct Hcase as [[-> [Hh2 | Hw2]] | [Hc Hc1]].
    - pose proof (strided_2_lt h Hh2).
      destruct (Z.eqb_spec h (strided h 2)); [lia|].
      destruct (Z.eqb_spec h 1); [lia|]. cbn. apply andb_false_r.
    - pose proof (strided_2_lt w Hw2).
      destruct (Z.eqb_spec w (strided w 2)); [lia|].
      destruct (Z.eqb_spec w 1); [lia|]. reflexivity.
    - destruct (Z.eqb_spec cin (mid * 4)); [contradiction|].
      destruct (Z.eqb_spec cin 1); [contradiction|]. cbn.
      now rewrite !andb_false_r. }
  rewrite E. reflexivity.
Qed.

Lemma unprojected_deep_block_fails_at_merge_witness :
  ResNetDeepBlock_forward true (ResNetDeepBlock.init 64 64 None 1)
    [8; 64; 56; 56]
  = Raise ShapeMismatchAtAdd.
Proof.
  apply (unprojected_deep_block_fails_at_merge true 64 64 1 8 56 56);
    [lia | lia | lia | reflexivity | reflexivity | right; lia].
Defined.

(** * Beyond the claims: the stage builder *)

(** X7.  The bottleneck branch of the stage builder, on every call: the
    first block carries a projection exactly when the stride is not 1 or
    [self.in_channels] is not four times the width, that projection is the
    1x1 convolution at the stage's stride from [self.in_channels] to four
    times the width followed by normalization, the stage is the one the
    specification describes, and [self.in_channels] is left at four times
    the width. *)
Theorem deep_stage_builder out c stride st :
  create_residual_layer ResNetDeepBlock_class out c stride st
    = (spec_stage ResNetDeepBlock_class st out stride c, out * 4) /\
  hd_error (fst (create_residual_layer ResNetDeepBlock_class out c stride st))
    = Some (Deep (ResNetDeepBlock.init st out
                    (if (stride =? 1) && (st =? out * 4) then None
                     else Some [Conv2d st (out * 4) 1 stride 0 false;
                                BatchNorm2d (out * 4)])
                    stride)).
Proof.
  split; [apply deep_builder_meets_spec|].
  rewrite create_residual_layer_deep. cbn [fst hd_error].
  destruct (stride =? 1), (st =? out * 4); reflexivity.
Qed.

(** X8.  Stages run.  Take a bottleneck stage built with a positive width
    and a positive [self.in_channels], any count and any stride of at least
    1, and a non-empty input map with [self.in_channels] channels that
    batch norm accepts both at its own extents and at the extents reduced
    by the stride (always so in evaluation mode and for two images or
    more).  The stage returns four times the width at the reduced extents:
    no merge reports a mismatch.  A basic stage of width at least 2 does
    so from the input width [create_residual_layer] assumes, provided the
    stage strides or has width 64. *)
Theorem built_stages_run tr out c stride st n h w :
  1 <= out -> 1 <= st -> 1 <= stride -> 1 <= h -> 1 <= w ->
  stat_ok tr n h w ->
  stat_ok tr n (strided h stride) (strided w stride) ->
  Stage_forward tr
    (fst (create_residual_layer ResNetDeepBlock_class out c stride st))
    [n; st; h; w]
  = Ok [n; out * 4; strided h stride; strided w stride] /\
  (2 <= out -> stride <> 1 \/ out = 64 ->
   Stage_forward tr
     (fst (create_residual_layer ResNetBlock_class out c stride st))
     [n; if out =? 64 then out else out / 2; h; w]
   = Ok [n; out; strided h stride; strided w stride]).
Proof.
  intros _ _ Hs Hh Hw Hb Hb'. unfold stat_ok in Hb, Hb'. split.
  - rewrite deep_stage_outcome by assumption. now rewrite Hb, Hb'.
  - intros _ Hcase. rewrite basic_stage_outcome; auto. now rewrite Hb'.
Qed.

Lemma built_stages_run_witness :
  Stage_forward true
    (fst (create_residual_layer ResNetDeepBlock_class 128 4 2 256))
    [1; 256; 56; 56]
  = Ok [1; 128 * 4; strided 56 2; strided 56 2] /\
  Stage_forward true
    (fst (create_residual_layer ResNetBlock_class 128 4 2 64))
    [1; if 128 =? 64 then 128 else 128 / 2; 56; 56]
  = Ok [1; 128; strided 56 2; strided 56 2].
Proof.
  destruct (built_stages_run true 128 4 2 256 1 56 56) as [Hd _];
    [lia | lia | lia | lia | lia | reflexivity | reflexivity |].
  destruct (built_stages_run true 128 4 2 64 1 56 56) as [_ Hb];
    [lia | lia | lia | lia | lia | reflexivity | reflexivity |].
  split; [exact Hd | apply Hb; [lia | left; lia]].
Defined.

(** * Beyond the claims: the training loop *)

Import BaseModel.

Ltac run_calls :=
  cbv [bindM set_batch_indx set_vbatch_indx set_running_loss set_avg_loss
       set_running_vloss set_mode modify emit get ret fail call_model
       call_loss torch_max_dim1 call_metric_update read_index call
       training batch_indx vbatch_indx running_loss avg_loss running_vloss
       log];
  cbn [fst snd].

Ltac open_state s :=
  destruct s as [? ? ? ? ? ? ?];
  cbn [training batch_indx vbatch_indx running_loss avg_loss running_vloss
       log] in *.

Section TrainModelFacts.

Context {L : Type}.
Variable model : bool -> Shape -> Res Shape.
Variable loss_fn : Shape -> Shape -> option L.
Variable metric_update : Shape -> Shape -> bool.
Variable zero_grad : Shape -> Shape -> bool.
Variable backward : Shape -> Shape -> bool.
Variable optimizer_step : Shape -> Shape -> bool.

Lemma train_batch_ok i b (s : State) :
  step_ok model loss_fn metric_update zero_grad backward optimizer_step true b -> training s = true ->
  exists s',
    train_batch model loss_fn metric_update zero_grad backward optimizer_step i b s = (s', Done tt) /\
    training s' = true /\
    batch_indx s' = Some i /\
    vbatch_indx s' = vbatch_indx s /\
    filter is_step (log s') = filter is_step (log s) ++ [OptimizerStep] /\
    filter is_forward (log s')
      = filter is_forward (log s) ++ [Forward true (fst b)] /\
    filter is_reset (log s') = filter is_reset (log s).
Proof.
  intros (out & l & pred & Hm & Hl & Hx & Hu & Hopt) Htr.
  destruct (Hopt eq_refl) as (Hz & Hb & Hs).
  destruct b as [input labels]. cbn [fst snd] in *.
  open_state s. subst. unfold train_batch. run_calls.
  rewrite Hz. run_calls. rewrite Hm. run_calls. rewrite Hl. run_calls.
  rewrite Hb. run_calls. rewrite Hx. run_calls. rewrite Hu. run_calls.
  rewrite Hs. run_calls.
  eexists. split; [reflexivity|]. cbn [training batch_indx vbatch_indx log].
  rewrite <- !app_assoc. cbn [app]. rewrite !filter_app.
  cbn [filter is_step is_forward is_reset]. rewrite !app_nil_r.
  repeat split; reflexivity.
Qed.

Lemma validation_batch_ok i b (s : State) :
  step_ok model loss_fn metric_update zero_grad backward optimizer_step false b -> training s = false ->
  exists s',
    validation_batch model loss_fn metric_update i b s = (s', Done tt) /\
    training s' = false /\
    vbatch_indx s' = Some i /\
    filter is_step (log s') = filter is_step (log s) /\
    filter is_forward (log s')
      = filter is_forward (log s) ++ [Forward false (fst b)] /\
    filter is_reset (log s') = filter is_reset (log s).
Proof.
  intros (out & l & pred & Hm & Hl & Hx & Hu & _) Htr.
  destruct b as [input labels]. cbn [fst snd] in *.
  open_state s. subst. unfold validation_batch. run_calls.
  rewrite Hm. run_calls. rewrite Hl. run_calls. rewrite Hx. run_calls.
  rewrite Hu. run_calls.
  eexists. split; [reflexivity|]. cbn [training batch_indx vbatch_indx log].
  rewrite <- !app_assoc. cbn [app]. rewrite !filter_app.
  cbn [filter is_step is_forward is_reset]. rewrite !app_nil_r.
  repeat split; reflexivity.
Qed.

Lemma bindM_Done {A B : Type} (m : @M L A) (k : A -> @M L B) (s s' : State)
    a :
  m s = (s', Done a) -> bindM m k s = k a s'.
Proof. intros E. unfold bindM. now rewrite E. Qed.

Lemma train_loop_ok loader : forall i (s : State),
  Forall (step_ok model loss_fn metric_update zero_grad backward optimizer_step true) loader ->
  training s = true ->
  exists s',
    for_enumerate (train_batch model loss_fn metric_update zero_grad backward optimizer_step) i loader s
      = (s', Done tt) /\
    training s' = true /\
    (loader <> [] -> batch_indx s' <> None) /\
    vbatch_indx s' = vbatch_indx s /\
    filter is_step (log s')
      = filter is_step (log s) ++ repeat OptimizerStep (List.length loader) /\
    filter is_forward (log s')
      = filter is_forward (log s)
        ++ map (fun b => Forward true (fst b)) loader /\
    filter is_reset (log s') = filter is_reset (log s).
Proof.
  induction loader as [|b rest IH]; intros i s Hok Htr.
  - exists s. cbn [for_enumerate List.length repeat map].
    rewrite !app_nil_r. repeat split; try reflexivity; try assumption.
    intros H; now contradiction H.
  - inversion Hok as [|? ? Hb Hrest]; subst.
    destruct (train_batch_ok i b s Hb Htr)
      as (s1 & E1 & T1 & B1 & V1 & S1 & F1 & R1).
    destruct (IH (S i) s1 Hrest T1)
      as (s2 & E2 & T2 & B2 & V2 & S2 & F2 & R2).
    exists s2. cbn [for_enumerate]. rewrite (bindM_Done _ _ _ _ _ E1).
    split; [exact E2|]. split; [exact T2|]. split.
    + intros _. destruct rest as [|b' rest'].
      * cbn [for_enumerate] in E2. injection E2 as <-. now rewrite B1.
      * apply B2. discriminate.
    + rewrite V2, S2, F2, R2, V1, S1, F1, R1.
      cbn [List.length repeat map]. rewrite <- !app_assoc.
      repeat split; reflexivity.
Qed.

Lemma validation_loop_ok loader : forall i (s : State),
  Forall (step_ok model loss_fn metric_update zero_grad backward optimizer_step false) loader ->
  training s = false ->
  exists s',
    for_enumerate (validation_batch model loss_fn metric_update) i loader s
      = (s', Done tt) /\
    training s' = false /\
    (loader <> [] -> vbatch_indx s' <> None) /\
    filter is_step (log s') = filter is_step (log s) /\
    filter is_forward (log s')
      = filter is_forward (log s)
        ++ map (fun b => Forward false (fst b)) loader /\
    filter is_reset (log s') = filter is_reset (log s).
Proof.
  induction loader as [|b rest IH]; intros i s Hok Htr.
  - exists s. cbn [for_enumerate map].
    rewrite !app_nil_r. repeat split; try reflexivity; try assumption.
    intros H; now contradiction H.
  - inversion Hok as [|? ? Hb Hrest]; subst.
    destruct (validation_batch_ok i b s Hb Htr)
      as (s1 & E1 & T1 & V1 & S1 & F1 & R1).
    destruct (IH (S i) s1 Hrest T1)
      as (s2 & E2 & T2 & V2 & S2 & F2 & R2).
    exists s2. cbn [for_enumerate]. rewrite (bindM_Done _ _ _ _ _ E1).
    split; [exact E2|]. split; [exact T2|]. split.
    + intros _. destruct rest as [|b' rest'].
      * cbn [for_enumerate] in E2. injection E2 as <-. now rewrite V1.
      * apply V2. discriminate.
    + rewrite S2, F2, R2, S1, F1, R1. cbn [map]. rewrite <- !app_assoc.
      repeat split; reflexivity.
Qed.

Ltac tidy_logs :=
  cbn [training batch_indx vbatch_indx log];
  rewrite <- ?app_assoc; cbn [app]; rewrite ?filter_app;
  cbn [filter is_step is_forward is_reset]; rewrite ?app_nil_r.

Lemma epoch_ok train_loader validation_loader scheduler (s : State) :
  Forall (step_ok model loss_fn metric_update zero_grad backward optimizer_step true) train_loader ->
  Forall (step_ok model loss_fn metric_update zero_grad backward optimizer_step false) validation_loader ->
  train_loader <> [] -> validation_loader <> [] ->
  exists s',
    epoch model loss_fn metric_update zero_grad backward optimizer_step train_loader validation_loader
      scheduler s = (s', Done tt) /\
    training s' = false /\
    filter is_step (log s')
      = filter is_step (log s)
        ++ repeat OptimizerStep (List.length train_loader) /\
    filter is_forward (log s')
      = filter is_forward (log s)
        ++ (map (fun b => Forward true (fst b)) train_loader
            ++ map (fun b => Forward false (fst b)) validation_loader) /\
    filter is_reset (log s')
      = filter is_reset (log s) ++ [MetricReset; MetricReset].
Proof.
  intros Ht Hv Hne Hvne. open_state s. unfold epoch. run_calls.
  match goal with
  | |- context [for_enumerate ?f ?i train_loader ?s0] =>
      destruct (train_loop_ok train_loader i s0 Ht eq_refl)
        as (s1 & E1 & T1 & B1 & V1 & S1 & F1 & R1)
  end.
  rewrite E1. specialize (B1 Hne). clear E1 V1.
  destruct s1 as [tr1 bi1 vbi1 rl1 al1 rvl1 lg1].
  cbn [training batch_indx log] in *. subst tr1.
  rewrite filter_app in S1, F1, R1.
  cbn [filter is_step is_forward is_reset] in S1, F1, R1.
  rewrite app_nil_r in S1, F1, R1.
  destruct bi1 as [i1|]; [|now contradiction B1].
  assert (Hv2 : forall s0 : State, training s0 = false ->
            log s0 = lg1 ++ [MetricCompute; MetricReset]
                     ++ (if scheduler then [SchedulerStep] else [])
                     ++ [ModelEval] ->
            exists s2,
              for_enumerate (validation_batch model loss_fn metric_update)
                0%nat validation_loader s0 = (s2, Done tt) /\
              training s2 = false /\
              vbatch_indx s2 <> None /\
              filter is_step (log s2) = filter is_step lg1 /\
              filter is_forward (log s2)
                = filter is_forward lg1
                  ++ map (fun b => Forward false (fst b)) validation_loader /\
              filter is_reset (log s2)
                = filter is_reset lg1 ++ [MetricReset]).
  { intros s0 T0 L0.
    destruct (validation_loop_ok validation_loader 0%nat s0 Hv T0)
      as (s2 & E2 & T2 & V2 & S2 & F2 & R2).
    exists s2. split; [exact E2|]. split; [exact T2|].
    split; [exact (V2 Hvne)|].
    rewrite S2, F2, R2, L0. destruct scheduler; tidy_logs;
      repeat split; reflexivity. }
  destruct scheduler; run_calls;
    (match goal with
     | |- context [for_enumerate ?f ?i ?l ?s0] =>
         destruct (Hv2 s0 eq_refl) as (s2 & E2 & T2 & V2 & S2 & F2 & R2);
           [cbn [log]; rewrite <- ?app_assoc; reflexivity|]
     end);
    rewrite E2; clear E2;
    destruct s2 as [tr2 bi2 vbi2 rl2 al2 rvl2 lg2];
    cbn [training vbatch_indx log] in *; subst tr2;
    (destruct vbi2 as [i2|]; [|now contradiction V2]);
    (eexists; split; [reflexivity|]); tidy_logs;
    rewrite ?S2, ?F2, ?R2, ?S1, ?F1, ?R1;
    rewrite <- ?app_assoc; cbn [app]; repeat split; reflexivity.
Qed.

Lemma epochs_ok train_loader validation_loader scheduler n : forall s : State,
  Forall (step_ok model loss_fn metric_update zero_grad backward optimizer_step true) train_loader ->
  Forall (step_ok model loss_fn metric_update zero_grad backward optimizer_step false) validation_loader ->
  train_loader <> [] -> validation_loader <> [] ->
  exists s',
    for_epochs n
      (epoch model loss_fn metric_update zero_grad backward optimizer_step train_loader validation_loader
         scheduler) s = (s', Done tt) /\
    training s' = (match n with O => training s | S _ => false end) /\
    filter is_step (log s')
      = filter is_step (log s)
        ++ repeat OptimizerStep (n * List.length train_loader) /\
    filter is_forward (log s')
      = filter is_forward (log s)
        ++ List.concat (repeat
             (map (fun b => Forward true (fst b)) train_loader
              ++ map (fun b => Forward false (fst b)) validation_loader) n) /\
    filter is_reset (log s')
      = filter is_reset (log s) ++ repeat MetricReset (2 * n).
Proof.
  induction n as [|n IH]; intros s Ht Hv Hne Hvne.
  - exists s. cbn. rewrite !app_nil_r. repeat split; reflexivity.
  - destruct (epoch_ok train_loader validation_loader scheduler s
                Ht Hv Hne Hvne) as (s1 & E1 & T1 & S1 & F1 & R1).
    destruct (IH s1 Ht Hv Hne Hvne) as (s2 & E2 & T2 & S2 & F2 & R2).
    exists s2. cbn [for_epochs]. rewrite (bindM_Done _ _ _ _ _ E1).
    split; [exact E2|]. split; [rewrite T2, T1; now destruct n|].
    rewrite S2, F2, R2, S1, F1, R1. rewrite <- !app_assoc.
    replace (2 * S n)%nat with (2 + 2 * n)%nat by lia.
    cbn [Nat.mul repeat List.concat Nat.add app].
    rewrite repeat_app, <- !app_assoc. repeat split; reflexivity.
Qed.

Lemma train_model_from_entry train_loader validation_loader num_epochs
    scheduler mode :
  train_model model loss_fn metric_update zero_grad backward optimizer_step train_loader validation_loader
    num_epochs scheduler mode
  = for_epochs (Z.to_nat num_epochs)
      (epoch model loss_fn metric_update zero_grad backward optimizer_step train_loader validation_loader
         scheduler) (entry mode).
Proof. reflexivity. Qed.

(** X9.  An empty training loader.  With at least one epoch asked for, the
    run ends in the first epoch on the unbound loop variable [batch_indx],
    read to average the loss: the model has been put in training mode and
    nothing else has been called. *)
Theorem train_model_on_empty_train_loader validation_loader num_epochs
    scheduler mode :
  1 <= num_epochs ->
  let r := train_model model loss_fn metric_update zero_grad backward optimizer_step [] validation_loader
             num_epochs scheduler mode in
  snd r = Fail (UnboundLocalError "batch_indx") /\
  log (fst r) = [ModelTrain] /\
  training (fst r) = true.
Proof.
  intros Hn. unfold train_model.
  destruct (Z.to_nat num_epochs) as [|k] eqn:E; [lia|].
  cbn. repeat split; reflexivity.
Qed.

Lemma bindM_Fail {A B : Type} (m : @M L A) (k : A -> @M L B) (s s' : State)
    e :
  m s = (s', Fail e) -> bindM m k s = (s', Fail e).
Proof. intros E. unfold bindM. now rewrite E. Qed.

Lemma epoch_without_validation train_loader scheduler (s : State) :
  Forall (step_ok model loss_fn metric_update zero_grad backward optimizer_step true) train_loader ->
  train_loader <> [] -> vbatch_indx s = None ->
  exists s',
    epoch model loss_fn metric_update zero_grad backward optimizer_step train_loader [] scheduler s
      = (s', Fail (UnboundLocalError "vbatch_indx")) /\
    training s' = false /\
    filter is_step (log s')
      = filter is_step (log s)
        ++ repeat OptimizerStep (List.length train_loader).
Proof.
  intros Ht Hne Hv. open_state s. subst. unfold epoch. run_calls.
  match goal with
  | |- context [for_enumerate ?f ?i train_loader ?s0] =>
      destruct (train_loop_ok train_loader i s0 Ht eq_refl)
        as (s1 & E1 & T1 & B1 & V1 & S1 & F1 & R1)
  end.
  rewrite E1. specialize (B1 Hne). clear E1.
  destruct s1 as [tr1 bi1 vbi1 rl1 al1 rvl1 lg1].
  cbn [training batch_indx vbatch_indx log] in *. subst tr1 vbi1.
  rewrite filter_app in S1. cbn [filter is_step] in S1.
  rewrite app_nil_r in S1.
  destruct bi1 as [i1|]; [|now contradiction B1].
  destruct scheduler; cbn [for_enumerate]; run_calls;
    (eexists; split; [reflexivity|]); tidy_logs;
    rewrite S1; split; reflexivity.
Qed.

(** X10.  An empty validation loader.  When every training batch goes
    through, the first epoch trains in full (one optimizer step per batch)
    and the run then ends on the unbound loop variable [vbatch_indx], the
    model left in evaluation mode; later epochs are never reached. *)
Theorem train_model_on_empty_validation_loader train_loader num_epochs
    scheduler mode :
  Forall (step_ok model loss_fn metric_update zero_grad backward optimizer_step true) train_loader ->
  train_loader <> [] -> 1 <= num_epochs ->
  let r := train_model model loss_fn metric_update zero_grad backward optimizer_step train_loader []
             num_epochs scheduler mode in
  snd r = Fail (UnboundLocalError "vbatch_indx") /\
  count is_step (log (fst r)) = List.length train_loader /\
  training (fst r) = false.
Proof.
  intros Ht Hne Hn. rewrite train_model_from_entry.
  destruct (Z.to_nat num_epochs) as [|k] eqn:E; [lia|].
  cbn [for_epochs].
  destruct (epoch_without_validation train_loader scheduler (entry mode)
              Ht Hne eq_refl) as (s1 & E1 & T1 & S1).
  rewrite (bindM_Fail _ _ _ _ _ E1). cbn [fst snd].
  split; [reflexivity|]. split; [|exact T1].
  unfold count. rewrite S1. cbn [entry log filter app]. apply repeat_length.
Qed.

(** X11.  A run in which every batch goes through.  With both loaders
    non-empty, the run completes; the optimizer has stepped once per
    training batch and epoch; the model has been called, in order, on the
    training batches in training mode and then on the validation batches
    in evaluation mode, epoch after epoch, and at no other time; the metric
    has been reset twice per epoch; and the model is left in evaluation
    mode as soon as one epoch has run. *)
Theorem train_model_completes train_loader validation_loader num_epochs
    scheduler mode :
  Forall (step_ok model loss_fn metric_update zero_grad backward optimizer_step true) train_loader ->
  Forall (step_ok model loss_fn metric_update zero_grad backward optimizer_step false) validation_loader ->
  train_loader <> [] -> validation_loader <> [] ->
  let r := train_model model loss_fn metric_update zero_grad backward optimizer_step train_loader
             validation_loader num_epochs scheduler mode in
  snd r = Done tt /\
  count is_step (log (fst r))
    = (Z.to_nat num_epochs * List.length train_loader)%nat /\
  filter is_forward (log (fst r))
    = List.concat (repeat
        (map (fun b => Forward true (fst b)) train_loader
         ++ map (fun b => Forward false (fst b)) validation_loader)
        (Z.to_nat num_epochs)) /\
  count is_reset (log (fst r)) = (2 * Z.to_nat num_epochs)%nat /\
  training (fst r) = (if 1 <=? num_epochs then false else mode).
Proof.
  intros Ht Hv Hne Hvne. rewrite train_model_from_entry.
  destruct (epochs_ok train_loader validation_loader scheduler
              (Z.to_nat num_epochs) (entry mode) Ht Hv Hne Hvne)
    as (s1 & E1 & T1 & S1 & F1 & R1).
  rewrite E1. cbn [fst snd].
  split; [reflexivity|]. unfold count. rewrite S1, F1, R1, T1.
  unfold entry. cbn [log training filter app].
  rewrite !repeat_length. repeat split; try reflexivity.
  destruct (Z.leb_spec 1 num_epochs).
  - destruct (Z.to_nat num_epochs) eqn:E; [lia | reflexivity].
  - replace (Z.to_nat num_epochs) with O by lia. reflexivity.
Qed.

End TrainModelFacts.

(** ** The loop on the residual network *)



(** ** The facts on the loop, at concrete collaborators *)

Lemma train_model_on_empty_train_loader_witness :
  snd (train_model (L := unit) (fun _ _ => Ok [2; 3]) (fun _ _ => Some tt)
         (fun _ _ => true) (fun _ _ => true) (fun _ _ => true)
         (fun _ _ => true) [] [([2; 3; 8; 8], [2])] 3 false false)
  = Fail (UnboundLocalError "batch_indx").
Proof.
  exact (proj1 (train_model_on_empty_train_loader (L := unit)
                  (fun _ _ => Ok [2; 3]) (fun _ _ => Some tt)
                  (fun _ _ => true) (fun _ _ => true) (fun _ _ => true)
                  (fun _ _ => true) [([2; 3; 8; 8], [2])] 3 false false
                  ltac:(lia))).
Defined.

Lemma all_calls_succeed mode :
  Forall (step_ok (L := unit) (fun _ _ => Ok [2; 3]) (fun _ _ => Some tt)
            (fun _ _ => true) (fun _ _ => true) (fun _ _ => true)
            (fun _ _ => true) mode)
    [([2; 3; 8; 8], [2]); ([2; 3; 8; 8], [2])].
Proof.
  repeat constructor; exists [2; 3], tt, [2]; repeat split; reflexivity.
Defined.

Lemma train_model_on_empty_validation_loader_witness :
  snd (train_model (L := unit) (fun _ _ => Ok [2; 3]) (fun _ _ => Some tt)
         (fun _ _ => true) (fun _ _ => true) (fun _ _ => true)
         (fun _ _ => true) [([2; 3; 8; 8], [2]); ([2; 3; 8; 8], [2])] []
         3 true false)
  = Fail (UnboundLocalError "vbatch_indx").
Proof.
  exact (proj1 (train_model_on_empty_validation_loader (L := unit)
                  (fun _ _ => Ok [2; 3]) (fun _ _ => Some tt)
                  (fun _ _ => true) (fun _ _ => true) (fun _ _ => true)
                  (fun _ _ => true) _ 3 true false
                  (all_calls_succeed true) ltac:(discriminate) ltac:(lia))).
Defined.

Lemma train_model_completes_witness :
  count is_step
    (log (fst (train_model (L := unit) (fun _ _ => Ok [2; 3])
                 (fun _ _ => Some tt) (fun _ _ => true) (fun _ _ => true)
                 (fun _ _ => true) (fun _ _ => true)
                 [([2; 3; 8; 8], [2]); ([2; 3; 8; 8], [2])]
                 [([2; 3; 8; 8], [2]); ([2; 3; 8; 8], [2])] 3 true false)))
  = (Z.to_nat 3 * 2)%nat.
Proof.
  exact (proj1 (proj2 (train_model_completes (L := unit)
                  (fun _ _ => Ok [2; 3]) (fun _ _ => Some tt)
                  (fun _ _ => true) (fun _ _ => true) (fun _ _ => true)
                  (fun _ _ => true) _ _ 3 true false
                  (all_calls_succeed true) (all_calls_succeed false)
                  ltac:(discriminate) ltac:(discriminate)))).
Defined.

